(** * AgriAI backend: the orchestration core, embedded and verified

    Shallow embedding of [app.py] and of the three service modules
    ([services/text_translation.py], [services/speech_translation.py],
    [services/analysis.py]).

    - Python [str] is [string] (a sequence of 8-bit characters), Python
      dictionaries of a known shape are records whose optional keys are
      [option] fields, the two language tables are [gmap string string].
    - A coroutine that talks to the provider is a [Task]: its result (or
      the exception it raises), the time it takes, and the SDK calls it
      starts, each with the offset at which it starts.  [wait_for] and
      [gather] are defined on tasks.
    - A request handler runs in the monad [H]: exceptions, the log of the
      SDK calls started so far, and a cursor into the entropy that
      [os.urandom] reads. *)

From stdpp Require Import base option list strings pretty gmap.
From Stdlib Require Import Ascii NArith Lia.

Local Open Scope stdpp_scope.

(** ** Python strings *)

Module Py.

(** [bool(s)] for a [str]: the empty string is the only falsy one. *)
Definition truthy (s : string) : bool :=
  match s with
  | EmptyString => false
  | String _ _ => true
  end.

(** The ASCII whitespace that [str.strip()] removes.  [str.strip()] also
    removes the whitespace beyond ASCII (U+0085, U+00A0, ...), which this
    model leaves in place: a statement that depends on what is stripped
    is made for ASCII texts only ([ascii_only], [blank]). *)
Definition isspace (c : ascii) : bool :=
  match c with
  | "009" | "010" | "011" | "012" | "013"
  | "028" | "029" | "030" | "031" | " " => true
  | _ => false
  end%char.

Fixpoint lstrip (s : string) : string :=
  match s with
  | EmptyString => EmptyString
  | String c s' => if isspace c then lstrip s' else s
  end.

Definition rstrip (s : string) : string := String.rev (lstrip (String.rev s)).

Definition strip (s : string) : string := rstrip (lstrip s).

(** [sep.join(parts)] *)
Fixpoint join (sep : string) (parts : list string) : string :=
  match parts with
  | [] => ""
  | [p] => p
  | p :: rest => p +:+ sep +:+ join sep rest
  end.

(** [s.endswith(suffix)] *)
Definition endswith (s suffix : string) : bool :=
  let n := String.length s in
  let k := String.length suffix in
  if k <=? n then String.eqb (String.substring (n - k) k s) suffix else false.

(** [d.get(key, default)] on an optional key. *)
Definition get {A} (field : option A) (dflt : A) : A :=
  match field with
  | Some v => v
  | None => dflt
  end.

(** [l.count(x)] for a list of strings. *)
Definition count (l : list string) (x : string) : nat :=
  length (filter (λ y, y = x) l).

Definition hex_digit (n : N) : ascii :=
  match n with
  | 0 => "0" | 1 => "1" | 2 => "2" | 3 => "3" | 4 => "4" | 5 => "5"
  | 6 => "6" | 7 => "7" | 8 => "8" | 9 => "9" | 10 => "a" | 11 => "b"
  | 12 => "c" | 13 => "d" | 14 => "e" | _ => "f"
  end%N%char.

(** [bytes.hex()]: two lower-case digits per byte. *)
Fixpoint hex (bs : list Byte.byte) : string :=
  match bs with
  | [] => ""
  | b :: bs' =>
      String (hex_digit (Byte.to_N b / 16))
        (String (hex_digit (Byte.to_N b mod 16)) (hex bs'))
  end.

End Py.

(** ** Language registry *)

(** [services/text_translation.py]: the entries of [LANGUAGE_MAP], in
    the order of the source. *)
Definition LANGUAGE_ITEMS : list (string * string) :=
  [ ("English", "eng_Latn");
    ("isiZulu", "zul_Latn");
    ("isiXhosa", "xho_Latn");
    ("Kiswahili", "swh_Latn");
    ("Afrikaans", "afr_Latn");
    ("Southern Sotho", "sot_Latn");
    ("Northern Sotho", "nso_Latn");
    ("Swati", "ssw_Latn");
    ("Tsonga", "tso_Latn");
    ("Tswana", "tsn_Latn");
    ("Nigerian Pidgin", "eng_Latn");
    ("Portuguese", "eng_Latn") ].

Definition LANGUAGE_MAP : gmap string string := list_to_map LANGUAGE_ITEMS.

(** [LANGUAGE_MAP.get(language, "eng_Latn")] *)
Definition get_language_code (language : string) : string :=
  Py.get (LANGUAGE_MAP !! language) "eng_Latn".

(** [services/speech_translation.py]: the entries of [STT_LANGUAGE_MAP]. *)
Definition STT_LANGUAGE_ITEMS : list (string * string) :=
  [ ("English", "eng");
    ("isiZulu", "zul");
    ("isiXhosa", "eng");
    ("Kiswahili", "eng");
    ("Afrikaans", "afr");
    ("Southern Sotho", "sot");
    ("Nigerian Pidgin", "eng");
    ("Portuguese", "eng") ].

Definition STT_LANGUAGE_MAP : gmap string string :=
  list_to_map STT_LANGUAGE_ITEMS.

(** [STT_LANGUAGE_MAP.get(language, "eng")] *)
Definition get_stt_language_code (language : string) : string :=
  Py.get (STT_LANGUAGE_MAP !! language) "eng".

(** [name in table] *)
Definition contains (table : gmap string string) (name : string) : bool :=
  match table !! name with
  | Some _ => true
  | None => false
  end.

(** The closed code set of a table: the codes that occur in it. *)
Definition code_set (table : gmap string string) : gset string :=
  map_img table.

(** ** Provider payloads and result dictionaries *)

(** One element of ["labels"] / ["sentiment"] in a sentence of the
    sentiment payload. *)
Record label_dict := { label : option string }.

Record sentence_dict := {
  sent_labels : option (list label_dict);
  sent_sentiment : option (list label_dict)
}.

(** The payload of [client.get_sentiments]; the provider spells the key
    either ["Sentiments"] or ["sentiments"]. *)
Record sentiments_payload := {
  data_Sentiments : option (list sentence_dict);
  data_sentiments : option (list sentence_dict)
}.

(** What [analyze_sentiment] returns.  ["overall_sentiment"] is optional
    because [format_analysis_results] tests for the key. *)
Record sentiment_dict := {
  overall_sentiment : option string;
  positive_count : nat;
  negative_count : nat;
  neutral_count : nat;
  sentiment_full_data : sentiments_payload
}.

(** One recognised entity: keys ["entity"], ["word"], ["start"], ["end"]. *)
Record entity_dict := {
  entity : option string;
  word : option string;
  start : option nat;
  end_ : option nat
}.

(** The value under ["Entities"] / ["entities"]: a list, or something
    that fails [isinstance(_, list)]. *)
Inductive entities_value :=
| EntityList (l : list entity_dict)
| NotAList.

Record entities_payload := {
  data_Entities : option entities_value;
  data_entities : option entities_value
}.

(** What [analyze_entities] returns.  ["entities"] is optional because
    [format_analysis_results] tests for the key. *)
Record entities_dict := {
  entities : option (list entity_dict);
  entity_count : nat;
  entities_full_data : entities_payload
}.

Record translation_item := { translated_text : option string }.

(** The payload of [client.translate]. *)
Record translate_payload := { translation : option (list translation_item) }.

(** The payload of [client.transcribe]. *)
Record transcribe_payload := {
  data_id : option string;
  data_transcription_text : option string;
  data_language_code : option string;
  data_transcription_status : option string
}.

(** The dictionary [transcribe_audio] returns; all four keys are set. *)
Record transcription_dict := {
  tr_id : string;
  tr_transcription_text : string;
  tr_language_code : string;
  tr_status : string
}.

(** ** Request and response models of [app.py] *)

Record TextAnalysisRequest := {
  req_content : string;
  req_language : string
}.

Record AnalysisResponse := {
  id : string;
  content : string;
  language : string;
  sentiment : option sentiment_dict;
  entities_field : option entities_dict
}.

Record UploadFile := {
  filename : string;
  content_type : string;
  file_bytes : list Byte.byte
}.

Record TranscriptionResponse := {
  t_id : string;
  t_transcription_text : string;
  t_analysis : string;
  t_language : string;
  t_sentiment : option sentiment_dict;
  t_entities : option entities_dict
}.

Definition REPLACEMENT_SENTENCE : string :=
  "The analysis service is not responding. Please try again later.".

(** ** The result formatter ([app.py], [format_analysis_results]) *)

(** The body of [for entity in entities[:10]]: one step of the loop on
    the accumulator [entity_list]. *)
Definition format_entity_step (entity_list : list string) (e : entity_dict)
  : list string :=
  let entity_type := Py.get (entity e) "unknown" in
  let entity_word := Py.get (word e) "" in
  if Py.truthy entity_word
  then entity_list ++ [entity_word +:+ " (" +:+ entity_type +:+ ")"]
  else entity_list.

Definition format_analysis_results
    (sentiment_result : option sentiment_dict)
    (entities_result : option entities_dict) : string :=
  let parts : list string := [] in
  let parts :=
    match sentiment_result with
    | Some d =>
        match overall_sentiment d with
        | Some sentiment => parts ++ ["Sentiment: " +:+ sentiment]
        | None => parts
        end
    | None => parts
    end in
  let parts :=
    match entities_result with
    | Some d =>
        match entities d with
        | Some ents =>
            if 0 <? length ents then
              let entity_list := fold_left format_entity_step (take 10 ents) [] in
              match entity_list with
              | _ :: _ =>
                  parts ++ ["Entities found: " +:+ Py.join ", " entity_list]
              | [] => parts
              end
            else parts
        | None => parts
        end
    | None => parts
    end in
  match parts with
  | [] => "Analysis completed. No significant patterns detected."
  | _ :: _ => Py.join ". " parts +:+ "."
  end.

(** ** Parsing the sentiment payload ([services/analysis.py]) *)

(** The body of [for sent in sentiments]: one step on [sentiment_labels]. *)
Definition collect_label_step (sentiment_labels : list string)
    (sent : sentence_dict) : list string :=
  match sent_labels sent with
  | Some (first :: _) => sentiment_labels ++ [Py.get (label first) "neutral"]
  | _ =>
      match sent_sentiment sent with
      | Some (first :: _) => sentiment_labels ++ [Py.get (label first) "neutral"]
      | _ => sentiment_labels
      end
  end.

(** Lines 114-118: the vote on the three counts. *)
Definition vote (positive_count negative_count neutral_count : nat) : string :=
  let overall_sentiment := "neutral" in
  if (negative_count <? positive_count) && (neutral_count <? positive_count)
  then "positive"
  else if (positive_count <? negative_count) && (neutral_count <? negative_count)
  then "negative"
  else overall_sentiment.

(** Lines 110-126: from the per-sentence labels to the result dictionary. *)
Definition sentiment_of_labels (sentiment_labels : list string)
    (data : sentiments_payload) : sentiment_dict :=
  let positive_count := Py.count sentiment_labels "positive" in
  let negative_count := Py.count sentiment_labels "negative" in
  let neutral_count := Py.count sentiment_labels "neutral" in
  {| overall_sentiment := Some (vote positive_count negative_count neutral_count);
     positive_count := positive_count;
     negative_count := negative_count;
     neutral_count := neutral_count;
     sentiment_full_data := data |}.

(** Lines 96-131: what one attempt returns for the payload [data]. *)
Definition parse_sentiments (data : sentiments_payload) : option sentiment_dict :=
  let sentiments :=
    match data_Sentiments data with
    | Some (s :: l) => Some (s :: l)
    | _ =>
        match data_sentiments data with
        | Some (s :: l) => Some (s :: l)
        | _ => None
        end
    end in
  match sentiments with
  | Some l => Some (sentiment_of_labels (fold_left collect_label_step l []) data)
  | None => None
  end.

(** Lines 214-234 of [analyze_entities]: one attempt on the payload. *)
Definition parse_entities (data : entities_payload) : entities_dict :=
  let ents :=
    match data_Entities data with
    | Some (EntityList l) => l
    | _ =>
        match data_entities data with
        | Some (EntityList l) => l
        | _ => []
        end
    end in
  match ents with
  | _ :: _ =>
      {| entities := Some ents; entity_count := length ents;
         entities_full_data := data |}
  | [] =>
      {| entities := Some []; entity_count := 0; entities_full_data := data |}
  end.

(** ** Exceptions *)

Inductive exn :=
| TimeoutError
| TranslationError (message : string) (status_code : nat)
| TranscriptionError (message : string) (status_code : nat)
| HTTPException (status_code : nat) (detail : string)
| RuntimeError (message : string)
| ProviderError (message : string).

(** [str(e)] *)
Definition exn_str (e : exn) : string :=
  match e with
  | TimeoutError => ""
  | TranslationError message _ => message
  | TranscriptionError message _ => message
  | HTTPException status_code detail => pretty status_code +:+ ": " +:+ detail
  | RuntimeError message => message
  | ProviderError message => message
  end.

(** ** The provider, as the services see it *)

(** The blocking SDK calls a coroutine can start. *)
Inductive sdk_call :=
| SdkTranslate (input_text source_lang target_lang : string)
| SdkTranscribe (lang_code : string)
| SdkGetSentiments (encoded_text : string)
| SdkGetEntities (encoded_text : string).

(** What a blocking SDK call does: it takes [latency] time units and then
    returns a payload or raises. *)
Record sdk_reply (A : Type) := SdkReply {
  latency : nat;
  reply : A + exn
}.
Arguments SdkReply {A} _ _.
Arguments latency {A} _.
Arguments reply {A} _.

(** [VulavulaClient(LELAPA_TOKEN)].  The sentiment and entity calls take
    the number of the attempt, so that a retry can meet another reply. *)
Record Provider := {
  sdk_translate : string → string → string → sdk_reply translate_payload;
  sdk_transcribe : list Byte.byte → string → sdk_reply transcribe_payload;
  sdk_get_sentiments : string → nat → sdk_reply sentiments_payload;
  sdk_get_entities : string → nat → sdk_reply entities_payload
}.

(** The process-wide state the modules read: the credential from the
    environment, the provider behind the SDK, and the bytes that
    [os.urandom] hands out. *)
Record Config := {
  LELAPA_TOKEN : option string;
  client : Provider;
  entropy : nat → Byte.byte
}.

(** [not LELAPA_TOKEN]: the variable is unset or empty. *)
Definition token_missing (cfg : Config) : bool :=
  match LELAPA_TOKEN cfg with
  | Some t => negb (Py.truthy t)
  | None => true
  end.

(** Each service module raises [ImportError] at import time when the SDK
    is missing, so a loaded module has [SDK_AVAILABLE = True]. *)
Definition SDK_AVAILABLE : bool := true.

(** ** Coroutines over the provider *)

(** A coroutine run to its end: [result] is the value returned or the
    exception raised, [elapsed] the time from start to end, [started] the
    SDK calls it starts, each with its offset from the start. *)
Record Task (A : Type) := mkTask {
  result : A + exn;
  elapsed : nat;
  started : list (nat * sdk_call)
}.
Arguments mkTask {A} _ _ _.
Arguments result {A} _.
Arguments elapsed {A} _.
Arguments started {A} _.

Module Task.

Definition ret {A} (a : A) : Task A := mkTask (inl a) 0 [].

Definition raise {A} (e : exn) : Task A := mkTask (inr e) 0 [].

Definition shift (d : nat) (cs : list (nat * sdk_call)) : list (nat * sdk_call) :=
  map (λ c, (d + c.1, c.2)) cs.

(** [m] and then [k], unless [m] raises. *)
Definition bind {A B} (k : A → Task B) (m : Task A) : Task B :=
  match result m with
  | inl a =>
      let m' := k a in
      mkTask (result m') (elapsed m + elapsed m')
        (started m ++ shift (elapsed m) (started m'))
  | inr e => mkTask (inr e) (elapsed m) (started m)
  end.

(** [try: m  except ...: h].  The handler [h] answers [None] for an
    exception that no [except] clause matches: it goes on propagating. *)
Definition try_except {A} (m : Task A) (h : exn → option (Task A)) : Task A :=
  match result m with
  | inl _ => m
  | inr e =>
      match h e with
      | Some m' =>
          mkTask (result m') (elapsed m + elapsed m')
            (started m ++ shift (elapsed m) (started m'))
      | None => m
      end
  end.

(** [await asyncio.sleep(d)] *)
Definition sleep (d : nat) : Task unit := mkTask (inl ()) d [].

(** [await loop.run_in_executor(executor, _sdk_call)]: the call starts
    at once, the coroutine resumes when the worker is done. *)
Definition run_in_executor {A} (c : sdk_call) (r : sdk_reply A) : Task A :=
  mkTask (reply r) (latency r) [(0, c)].

(** [asyncio.wait_for(m, timeout)]: if [m] is not done when [timeout]
    has elapsed, [TimeoutError] is raised at that instant and [m] is
    cancelled: the calls it had started remain started, the later ones
    never start.  Completion at the deadline counts as in time here;
    the theorems on the handlers assume of a deadline only a coroutine
    done before it, or not done after it.  [elapsed] of a wait that timed out
    is the instant at which [TimeoutError] is due: the time that the
    [with ThreadPoolExecutor()] block of the cancelled coroutine then
    spends joining its worker is not counted, and no statement bounds
    the duration of a wait. *)
Definition wait_for {A} (m : Task A) (timeout : nat) : Task A :=
  if elapsed m <=? timeout then m
  else mkTask (inr TimeoutError) timeout
         (filter (λ c, c.1 < timeout) (started m)).

(** [asyncio.gather(m1, m2)]: both run from the same instant; the pair
    is ready when both are done; the first exception raised (in time)
    is raised to the awaiter, the sibling keeps running. *)
Definition gather {A B} (m1 : Task A) (m2 : Task B) : Task (A * B) :=
  match result m1, result m2 with
  | inl a, inl b =>
      mkTask (inl (a, b)) (elapsed m1 `max` elapsed m2)
        (started m1 ++ started m2)
  | inr e, inl _ => mkTask (inr e) (elapsed m1) (started m1 ++ started m2)
  | inl _, inr e => mkTask (inr e) (elapsed m2) (started m1 ++ started m2)
  | inr e1, inr e2 =>
      if elapsed m1 <=? elapsed m2
      then mkTask (inr e1) (elapsed m1) (started m1 ++ started m2)
      else mkTask (inr e2) (elapsed m2) (started m1 ++ started m2)
  end.

End Task.

Global Instance Task_ret : MRet Task := @Task.ret.
Global Instance Task_bind : MBind Task := @Task.bind.

(** How one iteration of a [for] loop ends. *)
Inductive loop_exit (A : Type) :=
| Return (a : A)
| Continue.
Arguments Return {A} _.
Arguments Continue {A}.

(** ** Request handlers: exceptions, the call log and entropy *)

Record hstate := mkHState {
  cursor : nat;
  log : list sdk_call
}.

Definition H (A : Type) : Type := hstate → (A + exn) * hstate.

Module Handler.

Definition ret {A} (a : A) : H A := λ s, (inl a, s).

Definition raise {A} (e : exn) : H A := λ s, (inr e, s).

Definition bind {A B} (k : A → H B) (m : H A) : H B :=
  λ s, match m s with
       | (inl a, s') => k a s'
       | (inr e, s') => (inr e, s')
       end.

(** [try: m  except ...: h], with [None] for "no clause matches". *)
Definition try_except {A} (m : H A) (h : exn → option (H A)) : H A :=
  λ s, match m s with
       | (inl a, s') => (inl a, s')
       | (inr e, s') =>
           match h e with
           | Some m' => m' s'
           | None => (inr e, s')
           end
       end.

(** [await m]: the handler waits for the coroutine; the calls it
    started go to the log. *)
Definition await {A} (m : Task A) : H A :=
  λ s, (result m, mkHState (cursor s) (log s ++ (started m).*2)).

(** [os.urandom(n)]: the next [n] bytes of the entropy. *)
Definition os_urandom (cfg : Config) (n : nat) : H (list Byte.byte) :=
  λ s, (inl (map (entropy cfg) (seq (cursor s) n)),
        mkHState (cursor s + n) (log s)).

End Handler.

Global Instance H_ret : MRet H := @Handler.ret.
Global Instance H_bind : MBind H := @Handler.bind.

(** The local variables of a handler when it builds its response. *)
Record locals := {
  english_text : string;
  timed_out : bool;
  sentiment_result : option sentiment_dict;
  entities_result : option entities_dict;
  analysis_text : string;
  response_text : string
}.

(** The outcome of "Step 2" of a handler. *)
Record analysis := {
  a_timed_out : bool;
  a_sentiment_result : option sentiment_dict;
  a_entities_result : option entities_dict
}.

Section Services.

Context (cfg : Config).

(** *** [services/text_translation.py] *)

Definition translate_text (text source_lang target_lang : string) : Task string :=
  if token_missing cfg then
    Task.raise (TranslationError "Lelapa.ai API token not configured" 500)
  else if negb SDK_AVAILABLE then
    Task.raise
      (TranslationError
         "vulavula SDK is required. Install with: pip install vulavula" 500)
  else if String.eqb source_lang target_lang then
    mret text
  else
    Task.try_except
      (data ← Task.run_in_executor
                (SdkTranslate text source_lang target_lang)
                (sdk_translate (client cfg) text source_lang target_lang);
       match translation data with
       | Some (first :: _) =>
           let translated := Py.get (translated_text first) "" in
           if Py.truthy translated then mret translated
           else mret text
       | _ => mret text
       end)
      (λ e, Some (mret text)).

Definition translate_text_by_language_name
    (text source_language target_language : string) : Task string :=
  let source_code := get_language_code source_language in
  let target_code := get_language_code target_language in
  translate_text text source_code target_code.

(** *** [services/analysis.py] *)

(** The loop [for attempt in range(max_retries)] of [analyze_sentiment],
    on the attempts still to make. *)
Fixpoint sentiment_attempts (text_to_analyze : string) (max_retries : nat)
    (attempts : list nat) : Task (option sentiment_dict) :=
  match attempts with
  | [] => mret None
  | attempt :: rest =>
      exit ← Task.try_except
        ((if 0 <? attempt then Task.sleep (2 ^ (attempt - 1)) else mret ());;
         data ← Task.run_in_executor
                  (SdkGetSentiments text_to_analyze)
                  (sdk_get_sentiments (client cfg) text_to_analyze attempt);
         mret (Return (parse_sentiments data)))
        (λ e, Some (if attempt <? max_retries - 1
                    then mret Continue
                    else mret (Return None)));
      match exit with
      | Return r => mret r
      | Continue => sentiment_attempts text_to_analyze max_retries rest
      end
  end.

Definition analyze_sentiment (text : string) (max_retries : nat)
  : Task (option sentiment_dict) :=
  if token_missing cfg then mret None
  else if negb SDK_AVAILABLE then
    Task.raise
      (RuntimeError "vulavula SDK is required. Install with: pip install vulavula")
  else
    let text_to_analyze := Py.strip text in
    if negb (Py.truthy text_to_analyze) then mret None
    else
      let text_to_analyze :=
        if negb (Py.endswith text_to_analyze "."
                 || Py.endswith text_to_analyze "!"
                 || Py.endswith text_to_analyze "?")
        then text_to_analyze +:+ "."
        else text_to_analyze in
      sentiment_attempts text_to_analyze max_retries (seq 0 max_retries).

(** The loop [for attempt in range(max_retries)] of [analyze_entities]. *)
Fixpoint entities_attempts (text_to_analyze : string) (max_retries : nat)
    (attempts : list nat) : Task (option entities_dict) :=
  match attempts with
  | [] => mret None
  | attempt :: rest =>
      exit ← Task.try_except
        ((if 0 <? attempt then Task.sleep (2 ^ (attempt - 1)) else mret ());;
         data ← Task.run_in_executor
                  (SdkGetEntities text_to_analyze)
                  (sdk_get_entities (client cfg) text_to_analyze attempt);
         mret (Return (Some (parse_entities data))))
        (λ e, Some (if attempt <? max_retries - 1
                    then mret Continue
                    else mret (Return None)));
      match exit with
      | Return r => mret r
      | Continue => entities_attempts text_to_analyze max_retries rest
      end
  end.

Definition analyze_entities (text : string) (max_retries : nat)
  : Task (option entities_dict) :=
  if token_missing cfg then mret None
  else if negb SDK_AVAILABLE then
    Task.raise
      (RuntimeError "vulavula SDK is required. Install with: pip install vulavula")
  else
    let text_to_analyze := Py.strip text in
    if negb (Py.truthy text_to_analyze) then mret None
    else entities_attempts text_to_analyze max_retries (seq 0 max_retries).

(** *** [services/speech_translation.py] *)

Definition transcribe_audio (audio_file : UploadFile) (language : string)
  : H transcription_dict :=
  if token_missing cfg then
    Handler.raise (TranscriptionError "Lelapa.ai API token not configured" 500)
  else if negb SDK_AVAILABLE then
    Handler.raise
      (TranscriptionError
         "vulavula SDK is required. Install with: pip install vulavula" 500)
  else
    match STT_LANGUAGE_MAP !! language with
    | None =>
        Handler.raise
          (TranscriptionError
             ("Unsupported language for transcription: " +:+ language) 400)
    | Some lang_code =>
        Handler.try_except
          (let audio_data := file_bytes audio_file in
           data ← Handler.await
                    (Task.run_in_executor (SdkTranscribe lang_code)
                       (sdk_transcribe (client cfg) audio_data lang_code));
           let transcription_text := Py.get (data_transcription_text data) "" in
           if negb (Py.truthy transcription_text) then
             Handler.raise
               (TranscriptionError "No transcription text in response" 500)
           else
             fresh ← Handler.os_urandom cfg 8;
             mret {| tr_id := Py.get (data_id data) ("trans_" +:+ Py.hex fresh);
                     tr_transcription_text := transcription_text;
                     tr_language_code := Py.get (data_language_code data) lang_code;
                     tr_status :=
                       Py.get (data_transcription_status data) "COMPLETED" |})
          (λ e, match e with
                | TranscriptionError _ _ => Some (Handler.raise e)
                | _ =>
                    Some (Handler.raise
                            (TranscriptionError
                               ("Transcription failed: " +:+ exn_str e) 500))
                end)
    end.

(** *** [app.py]: the two pipelines *)

(** The closures [run_sentiment] and [run_entities] of both handlers. *)
Definition run_sentiment (english_text : string) : Task (option sentiment_dict) :=
  Task.try_except (analyze_sentiment english_text 1) (λ e, Some (mret None)).

Definition run_entities (english_text : string) : Task (option entities_dict) :=
  Task.try_except (analyze_entities english_text 1) (λ e, Some (mret None)).

(** "Step 2" (the same lines in both handlers): the two analyses under
    one [wait_for]; on [TimeoutError] both results stay [None]. *)
Definition analyze_step (english_text : string) : Task analysis :=
  Task.try_except
    (p ← Task.wait_for
           (Task.gather (run_sentiment english_text) (run_entities english_text))
           3;
     mret {| a_timed_out := false;
             a_sentiment_result := p.1;
             a_entities_result := p.2 |})
    (λ e, match e with
          | TimeoutError =>
              Some (mret {| a_timed_out := true;
                            a_sentiment_result := None;
                            a_entities_result := None |})
          | _ => None
          end).

(** "Step 3" (the same lines in both handlers). *)
Definition format_step (a : analysis) : string :=
  if a_timed_out a then REPLACEMENT_SENTENCE
  else format_analysis_results (a_sentiment_result a) (a_entities_result a).

(** "Step 4" (both handlers, with [lang_code] the translation code of
    the requested language). *)
Definition translate_back_step (language analysis_text lang_code : string)
  : Task string :=
  if negb (String.eqb language "English") then
    Task.try_except
      (Task.wait_for (translate_text analysis_text "eng_Latn" lang_code) 3)
      (λ e, match e with
            | TimeoutError => Some (mret analysis_text)
            | _ => Some (mret analysis_text)
            end)
  else mret analysis_text.

(** [analyze_text], from "Step 1" to the last assignment of
    [response_text]. *)
Definition analyze_text_steps (request : TextAnalysisRequest) : Task locals :=
  let source_lang_code := get_language_code (req_language request) in
  let target_lang_code := "eng_Latn" in
  english_text ←
    (if negb (String.eqb source_lang_code "eng_Latn") then
       Task.try_except
         (Task.wait_for
            (translate_text (req_content request) source_lang_code target_lang_code)
            3)
         (λ e, match e with
               | TimeoutError => Some (mret (req_content request))
               | _ => Some (mret (req_content request))
               end)
     else mret (req_content request));
  a ← analyze_step english_text;
  let analysis_text := format_step a in
  response_text ←
    translate_back_step (req_language request) analysis_text source_lang_code;
  mret {| english_text := english_text;
          timed_out := a_timed_out a;
          sentiment_result := a_sentiment_result a;
          entities_result := a_entities_result a;
          analysis_text := analysis_text;
          response_text := response_text |}.

Definition analyze_text (request : TextAnalysisRequest) : H AnalysisResponse :=
  if negb (Py.truthy (Py.strip (req_content request))) then
    Handler.raise (HTTPException 400 "Content cannot be empty")
  else if negb (contains LANGUAGE_MAP (req_language request)) then
    Handler.raise
      (HTTPException 400
         ("Unsupported language: " +:+ req_language request +:+ ". Supported: "
          +:+ Py.join ", " LANGUAGE_ITEMS.*1))
  else if token_missing cfg then
    Handler.raise (HTTPException 503 "Lelapa.ai API token not configured")
  else
    Handler.try_except
      (l ← Handler.await (analyze_text_steps request);
       fresh ← Handler.os_urandom cfg 8;
       mret {| id := "analysis_" +:+ Py.hex fresh;
               content := response_text l;
               language := req_language request;
               sentiment := sentiment_result l;
               entities_field := entities_result l |})
      (λ e, match e with
            | HTTPException _ _ => Some (Handler.raise e)
            | _ =>
                Some (Handler.raise
                        (HTTPException 500 ("Analysis failed: " +:+ exn_str e)))
            end).

(** [analyze_audio], from "Step 2" to the last assignment of
    [response_text]. *)
Definition analyze_audio_steps (language english_text : string) : Task locals :=
  a ← analyze_step english_text;
  let analysis_text := format_step a in
  let target_lang_code := get_language_code language in
  response_text ← translate_back_step language analysis_text target_lang_code;
  mret {| english_text := english_text;
          timed_out := a_timed_out a;
          sentiment_result := a_sentiment_result a;
          entities_result := a_entities_result a;
          analysis_text := analysis_text;
          response_text := response_text |}.

Definition analyze_audio (file : UploadFile) (language : string)
  : H TranscriptionResponse :=
  if negb (contains STT_LANGUAGE_MAP language) then
    Handler.raise
      (HTTPException 400
         ("Unsupported language: " +:+ language +:+ ". Supported: "
          +:+ Py.join ", " STT_LANGUAGE_ITEMS.*1))
  else if token_missing cfg then
    Handler.raise (HTTPException 503 "Lelapa.ai API token not configured")
  else
    Handler.try_except
      (transcription_result ← transcribe_audio file "English";
       let english_text :=
         Py.get (Some (tr_transcription_text transcription_result)) "" in
       if negb (Py.truthy english_text) then
         Handler.raise (HTTPException 500 "Transcription returned empty text")
       else
         l ← Handler.await (analyze_audio_steps language english_text);
         fresh ← Handler.os_urandom cfg 8;
         mret {| t_id := Py.get (Some (tr_id transcription_result))
                           ("audio_" +:+ Py.hex fresh);
                 t_transcription_text := english_text;
                 t_analysis := response_text l;
                 t_language := language;
                 t_sentiment := sentiment_result l;
                 t_entities := entities_result l |})
      (λ e, match e with
            | HTTPException _ _ => Some (Handler.raise e)
            | TranscriptionError message status_code =>
                Some (Handler.raise (HTTPException status_code message))
            | _ =>
                Some (Handler.raise
                        (HTTPException 500
                           ("Audio analysis failed: " +:+ exn_str e)))
            end).

End Services.

(** ** [app.py]: the listing endpoint *)

(** The body of the answer of [GET /api/languages]. *)
Record languages_listing := {
  listed_languages : list string;
  listed_language_codes : gmap string string;
  listed_stt_language_codes : gmap string string
}.

Definition get_languages : languages_listing :=
  {| listed_languages := LANGUAGE_ITEMS.*1;
     listed_language_codes := LANGUAGE_MAP;
     listed_stt_language_codes := STT_LANGUAGE_MAP |}.

(** ** Sample providers and requests *)

Module Samples.

Definition positive_sentence : sentence_dict :=
  {| sent_labels := Some [ {| label := Some "positive" |} ];
     sent_sentiment := None |}.

Definition positive_payload : sentiments_payload :=
  {| data_Sentiments := None; data_sentiments := Some [positive_sentence] |}.

Definition lagos : entity_dict :=
  {| entity := Some "location"; word := Some "Lagos";
     start := Some 11; end_ := Some 16 |}.

Definition nameless : entity_dict :=
  {| entity := Some "location"; word := None; start := None; end_ := None |}.

(** An entity whose text is the empty string. *)
Definition blank : entity_dict :=
  {| entity := Some "location"; word := Some ""; start := Some 0; end_ := Some 0 |}.

Definition lagos_payload : entities_payload :=
  {| data_Entities := None; data_entities := Some (EntityList [lagos]) |}.

(** Translation marks the text with the target code. *)
Definition marked (text target_lang : string) : translate_payload :=
  {| translation :=
       Some [ {| translated_text := Some ("[" +:+ target_lang +:+ "] " +:+ text) |} ] |}.

Definition transcript : transcribe_payload :=
  {| data_id := Some "job-42";
     data_transcription_text := Some "Rain fell in Lagos";
     data_language_code := Some "eng";
     data_transcription_status := Some "COMPLETED" |}.

Definition empty_transcript : transcribe_payload :=
  {| data_id := Some "job-43";
     data_transcription_text := Some "";
     data_language_code := Some "eng";
     data_transcription_status := Some "COMPLETED" |}.

(** Every call answers after one time unit. *)
Definition prompt : Provider :=
  {| sdk_translate := λ text _ target_lang, SdkReply 1 (inl (marked text target_lang));
     sdk_transcribe := λ _ _, SdkReply 1 (inl transcript);
     sdk_get_sentiments := λ _ _, SdkReply 1 (inl positive_payload);
     sdk_get_entities := λ _ _, SdkReply 1 (inl lagos_payload) |}.

(** As [prompt], but the entity call takes five time units. *)
Definition slow_entities : Provider :=
  {| sdk_translate := sdk_translate prompt;
     sdk_transcribe := sdk_transcribe prompt;
     sdk_get_sentiments := sdk_get_sentiments prompt;
     sdk_get_entities := λ _ _, SdkReply 5 (inl lagos_payload) |}.

(** As [prompt], but translation raises and transcription is empty. *)
Definition broken : Provider :=
  {| sdk_translate := λ _ _ _, SdkReply 1 (inr (ProviderError "503 Service Unavailable"));
     sdk_transcribe := λ _ _, SdkReply 1 (inl empty_transcript);
     sdk_get_sentiments := sdk_get_sentiments prompt;
     sdk_get_entities := sdk_get_entities prompt |}.

(** As [prompt], but transcription raises. *)
Definition deaf : Provider :=
  {| sdk_translate := sdk_translate prompt;
     sdk_transcribe := λ _ _, SdkReply 1 (inr (ProviderError "connection reset"));
     sdk_get_sentiments := sdk_get_sentiments prompt;
     sdk_get_entities := sdk_get_entities prompt |}.

Definition zeros : nat → Byte.byte := λ _, Byte.x00.

Definition counting : nat → Byte.byte :=
  λ n, default Byte.xff (Byte.of_N (N.of_nat n + 161)).

Definition config (p : Provider) (rng : nat → Byte.byte) : Config :=
  {| LELAPA_TOKEN := Some "secret"; client := p; entropy := rng |}.

Definition unconfigured : Config :=
  {| LELAPA_TOKEN := None; client := prompt; entropy := zeros |}.

Definition zulu_request : TextAnalysisRequest :=
  {| req_content := "Ukuvuna kwalo nyaka kuhle kakhulu"; req_language := "isiZulu" |}.

Definition english_request : TextAnalysisRequest :=
  {| req_content := "Harvest was excellent this year"; req_language := "English" |}.

Definition recording : UploadFile :=
  {| filename := "field.wav"; content_type := "audio/wav";
     file_bytes := [Byte.x52; Byte.x49; Byte.x46; Byte.x46] |}.

Definition idle : hstate := mkHState 0 [].

End Samples.

(** ** The vocabulary of the specification *)

(** An entity has a text when its ["word"] is present and not empty. *)
Definition has_text (e : entity_dict) : bool :=
  match word e with
  | Some (String _ _) => true
  | _ => false
  end.

(** ["{text} ({type})"], with ["unknown"] for a missing type. *)
Definition rendered (e : entity_dict) : string :=
  Py.get (word e) "" +:+ " (" +:+ Py.get (entity e) "unknown" +:+ ")".

(** Rule 1 of the formatter. *)
Definition sentiment_part (s : option sentiment_dict) : option string :=
  match s with
  | Some d =>
      match overall_sentiment d with
      | Some l => Some ("Sentiment: " +:+ l)
      | None => None
      end
  | None => None
  end.

(** The entities the formatter shows: among the first ten, those with a
    text. *)
Definition shown (ents : list entity_dict) : list entity_dict :=
  filter (λ e, has_text e) (take 10 ents).

(** Rule 2 of the formatter, as the code applies it. *)
Definition entities_part (e : option entities_dict) : option string :=
  match e with
  | Some d =>
      match entities d with
      | Some ents =>
          match shown ents with
          | [] => None
          | _ :: _ =>
              Some ("Entities found: " +:+ Py.join ", " (rendered <$> shown ents))
          end
      | None => None
      end
  | None => None
  end.

(** Rule 2 in the words of the specification: the first ten entities,
    every one of them rendered. *)
Definition entities_sentence_as_specified (ents : list entity_dict) : string :=
  "Entities found: " +:+ Py.join ", " (rendered <$> take 10 ents) +:+ ".".

Definition NO_PATTERNS : string :=
  "Analysis completed. No significant patterns detected.".

(** An entities result around a list of entities. *)
Definition entities_result_of (ents : list entity_dict) : entities_dict :=
  {| entities := Some ents; entity_count := length ents;
     entities_full_data := {| data_Entities := None;
                              data_entities := Some (EntityList ents) |} |}.

(** The non-empty translation the provider returns for a text, if it
    returns one. *)
Definition provider_translation (cfg : Config) (text source_lang target_lang : string)
  : option string :=
  match reply (sdk_translate (client cfg) text source_lang target_lang) with
  | inl data =>
      match translation data with
      | Some (first :: _) =>
          match translated_text first with
          | Some (String c t) => Some (String c t)
          | _ => None
          end
      | _ => None
      end
  | inr _ => None
  end.

(** The error response [analyze_audio] gives for an exception raised
    while the provider transcribes. *)
Definition transcription_rejection (e : exn) : exn :=
  match e with
  | TranscriptionError message status_code => HTTPException status_code message
  | _ => HTTPException 500 ("Transcription failed: " +:+ exn_str e)
  end.

(** Reading two hexadecimal digits back into a byte. *)
Definition unhex_digit (c : ascii) : N :=
  match c with
  | "0" => 0 | "1" => 1 | "2" => 2 | "3" => 3 | "4" => 4 | "5" => 5
  | "6" => 6 | "7" => 7 | "8" => 8 | "9" => 9 | "a" => 10 | "b" => 11
  | "c" => 12 | "d" => 13 | "e" => 14 | _ => 15
  end%char%N.

Definition unhex_pair (hi lo : ascii) : Byte.byte :=
  default Byte.x00 (Byte.of_N (16 * unhex_digit hi + unhex_digit lo)).

(** The response of a handler run, if it responded. *)
Definition response_of {A} (r : (A + exn) * hstate) : option A :=
  match r.1 with
  | inl a => Some a
  | inr _ => None
  end.

(** ** Further vocabulary *)

(** A text of ASCII characters only: every character is below 128.  On
    such a text the whitespace of [Py.isspace] is all the whitespace
    that [str.strip()] knows. *)
Fixpoint ascii_only (s : string) : bool :=
  match s with
  | EmptyString => true
  | String (Ascii _ _ _ _ _ _ _ b7) s' => negb b7 && ascii_only s'
  end.

(** A text made of whitespace only. *)
Fixpoint blank (s : string) : bool :=
  match s with
  | EmptyString => true
  | String c s' => Py.isspace c && blank s'
  end.

(** The text [analyze_sentiment] sends to the provider (lines 61-68). *)
Definition sentiment_text (text : string) : string :=
  let text_to_analyze := Py.strip text in
  if negb (Py.endswith text_to_analyze "."
           || Py.endswith text_to_analyze "!"
           || Py.endswith text_to_analyze "?")
  then text_to_analyze +:+ "."
  else text_to_analyze.

(** A text that ends with one of the three marks [analyze_sentiment]
    looks for. *)
Definition ends_sentence (t : string) : bool :=
  Py.endswith t "." || Py.endswith t "!" || Py.endswith t "?".

(** The pause before an attempt of the retry loops: none before the
    first, then 1, 2, 4, ... *)
Definition backoff (attempt : nat) : nat :=
  if 0 <? attempt then 2 ^ (attempt - 1) else 0.

(** The time attempt [i] takes against the replies [rep], pause included. *)
Definition attempt_time {P} (rep : nat → sdk_reply P) (i : nat) : nat :=
  backoff i + latency (rep i).

(** The SDK calls a coroutine starts, in the order it starts them. *)
Definition calls {A} (m : Task A) : list sdk_call := (started m).*2.

Definition is_translate (c : sdk_call) : bool :=
  match c with
  | SdkTranslate _ _ _ => true
  | _ => false
  end.

Definition is_transcribe (c : sdk_call) : bool :=
  match c with
  | SdkTranscribe _ => true
  | _ => false
  end.

(** More providers. *)
Module Cases.

(** The sentiment call raises twice and then answers; the entity call
    always raises. *)
Definition flaky : Provider :=
  {| sdk_translate := sdk_translate Samples.prompt;
     sdk_transcribe := sdk_transcribe Samples.prompt;
     sdk_get_sentiments :=
       λ _ attempt,
         if attempt <? 2 then SdkReply 1 (inr (ProviderError "busy"))
         else SdkReply 1 (inl Samples.positive_payload);
     sdk_get_entities := λ _ _, SdkReply 1 (inr (ProviderError "busy")) |}.

(** An entity with a text and no type. *)
Definition kano : entity_dict :=
  {| entity := None; word := Some "Kano"; start := Some 0; end_ := Some 4 |}.

Definition portuguese_request : TextAnalysisRequest :=
  {| req_content := "A colheita foi excelente"; req_language := "Portuguese" |}.

Definition blank_request : TextAnalysisRequest :=
  {| req_content := "   "; req_language := "English" |}.

(** As [Samples.prompt], but the entity call raises. *)
Definition entities_down : Provider :=
  {| sdk_translate := sdk_translate Samples.prompt;
     sdk_transcribe := sdk_transcribe Samples.prompt;
     sdk_get_sentiments := sdk_get_sentiments Samples.prompt;
     sdk_get_entities := λ _ _, SdkReply 2 (inr (ProviderError "busy")) |}.

End Cases.

(** * Properties *)

(** ** Strings *)

Lemma append_assoc (s1 s2 s3 : string) :
  (s1 +:+ s2) +:+ s3 = s1 +:+ s2 +:+ s3.
Proof.
  induction s1 as [|c s1 IH]; [reflexivity|].
  change (String c ((s1 +:+ s2) +:+ s3) = String c (s1 +:+ s2 +:+ s3)).
  by rewrite IH.
Qed.

Lemma append_cons (c : ascii) (s t : string) :
  String c s +:+ t = String c (s +:+ t).
Proof. reflexivity. Qed.

Lemma join_two (sep a b : string) : Py.join sep [a; b] = a +:+ sep +:+ b.
Proof. reflexivity. Qed.

(** ** Language registry *)

Lemma translation_code_set :
  code_set LANGUAGE_MAP =
    {[ "eng_Latn"; "zul_Latn"; "xho_Latn"; "swh_Latn"; "afr_Latn";
       "sot_Latn"; "nso_Latn"; "ssw_Latn"; "tso_Latn"; "tsn_Latn" ]}.
Proof. by vm_compute. Qed.

Lemma speech_code_set :
  code_set STT_LANGUAGE_MAP = {[ "eng"; "zul"; "afr"; "sot" ]}.
Proof. by vm_compute. Qed.

(** C7: [get_language_code] and [get_stt_language_code] are total; each
    returns the registered code of a registered name and the English code
    (["eng_Latn"], ["eng"]) of any other name, and the code returned is
    always one of the codes of its table. *)
Theorem language_codes_total (name : string) :
  match LANGUAGE_MAP !! name with
  | Some code => get_language_code name = code
  | None => get_language_code name = "eng_Latn"
  end
  ∧ get_language_code name ∈ code_set LANGUAGE_MAP
  ∧ match STT_LANGUAGE_MAP !! name with
    | Some code => get_stt_language_code name = code
    | None => get_stt_language_code name = "eng"
    end
  ∧ get_stt_language_code name ∈ code_set STT_LANGUAGE_MAP.
Proof.
  unfold get_language_code, get_stt_language_code, code_set.
  split_and!.
  - by destruct (LANGUAGE_MAP !! name).
  - destruct (LANGUAGE_MAP !! name) as [code|] eqn:Hname; simpl.
    + by eapply elem_of_map_img_2.
    + by apply (elem_of_map_img_2 _ "English").
  - by destruct (STT_LANGUAGE_MAP !! name).
  - destruct (STT_LANGUAGE_MAP !! name) as [code|] eqn:Hname; simpl.
    + by eapply elem_of_map_img_2.
    + by apply (elem_of_map_img_2 _ "English").
Qed.

(** ** The result formatter *)

Section Formatter.

Implicit Types (e : entity_dict) (ents : list entity_dict).
Implicit Types (acc : list string).

Lemma format_entity_step_text acc e :
  has_text e = true → format_entity_step acc e = acc ++ [rendered e].
Proof.
  unfold has_text, format_entity_step, rendered.
  by destruct (word e) as [[|c w]|].
Qed.

Lemma format_entity_step_no_text acc e :
  has_text e = false → format_entity_step acc e = acc.
Proof.
  unfold has_text, format_entity_step.
  by destruct (word e) as [[|c w]|].
Qed.

(** The loop of the formatter appends, in order, the rendering of the
    entities that have a text. *)
Lemma format_entity_loop ents acc :
  fold_left format_entity_step ents acc
  = acc ++ (rendered <$> filter (λ e, has_text e) ents).
Proof.
  revert acc; induction ents as [|e ents IH]; intros acc; simpl.
  - by rewrite app_nil_r.
  - rewrite IH. destruct (has_text e) eqn:He.
    + rewrite format_entity_step_text by done.
      rewrite filter_cons_True by (by apply Is_true_true).
      by rewrite fmap_cons, <- app_assoc.
    + rewrite format_entity_step_no_text by done.
      rewrite filter_cons_False; [done|]. by apply Is_true_false.
Qed.

Lemma shown_at_most_ten ents : length (shown ents) ≤ 10.
Proof.
  unfold shown. etrans; [apply length_filter|].
  rewrite length_take. lia.
Qed.

Lemma shown_all ents :
  Forall (λ e, has_text e = true) (take 10 ents) → shown ents = take 10 ents.
Proof.
  unfold shown. induction 1 as [|e l He _ IH]; [done|].
  rewrite filter_cons_True by (by apply Is_true_true). by rewrite IH.
Qed.

Lemma shown_none ents :
  Forall (λ e, has_text e = false) (take 10 ents) → shown ents = [].
Proof.
  unfold shown. induction 1 as [|e l He _ IH]; [done|].
  rewrite filter_cons_False; [done|]. by apply Is_true_false.
Qed.

(** The formatter in four cases. *)
Lemma format_cases (s : option sentiment_dict) (r : option entities_dict) :
  format_analysis_results s r =
    match sentiment_part s, entities_part r with
    | Some sp, Some ep => sp +:+ ". " +:+ ep +:+ "."
    | Some sp, None => sp +:+ "."
    | None, Some ep => ep +:+ "."
    | None, None => NO_PATTERNS
    end.
Proof.
  unfold format_analysis_results, sentiment_part, entities_part.
  destruct s as [d|]; [destruct (overall_sentiment d) as [l|]|];
    (destruct r as [d'|]; [destruct (entities d') as [ents|]|]);
    try reflexivity.
  all: destruct ents as [|e0 ents]; [reflexivity|].
  all: change (0 <? length (e0 :: ents)) with true; cbv iota.
  all: rewrite format_entity_loop, app_nil_l; fold (shown (e0 :: ents)).
  all: destruct (shown (e0 :: ents)) as [|e1 l1]; [reflexivity|].
  all: change (rendered <$> e1 :: l1) with (rendered e1 :: (rendered <$> l1)).
  all: cbv iota beta.
  - rewrite app_nil_l. cbn [app]. rewrite join_two. by rewrite !append_assoc.
  - by rewrite app_nil_l.
  - by rewrite app_nil_l.
Qed.

End Formatter.

(** C4: the formatter is a total function of its two arguments; it emits
    the sentiment part first and the entities part second, joins what it
    emitted with [". "] and ends with a period; with both results absent
    it returns the fixed sentence, and with only a sentiment labelled
    ["positive"] it returns ["Sentiment: positive."]. *)
Theorem format_analysis_results_rules
    (s : option sentiment_dict) (r : option entities_dict) :
  format_analysis_results s r =
    match sentiment_part s, entities_part r with
    | Some sp, Some ep => sp +:+ ". " +:+ ep +:+ "."
    | Some sp, None => sp +:+ "."
    | None, Some ep => ep +:+ "."
    | None, None => "Analysis completed. No significant patterns detected."
    end
  ∧ (∃ body, format_analysis_results s r = body +:+ ".")
  ∧ format_analysis_results None None
    = "Analysis completed. No significant patterns detected."
  ∧ (∀ d, overall_sentiment d = Some "positive" →
          format_analysis_results (Some d) None = "Sentiment: positive.").
Proof.
  split_and!.
  - apply format_cases.
  - rewrite format_cases.
    destruct (sentiment_part s) as [sp|], (entities_part r) as [ep|].
    + exists (sp +:+ ". " +:+ ep). by rewrite !append_assoc.
    + by exists sp.
    + by exists ep.
    + by exists "Analysis completed. No significant patterns detected".
  - reflexivity.
  - intros d Hd. rewrite format_cases. unfold sentiment_part. by rewrite Hd.
Qed.

(** C5, refuted as stated: an entity whose text is empty is not rendered
    as ["{text} ({type})"]; alone, it leaves no "Entities found" part. *)
Lemma blank_entity_not_rendered :
  format_analysis_results None
    (Some (entities_result_of [Samples.blank; Samples.lagos]))
  = "Entities found: Lagos (location)."
  ∧ entities_sentence_as_specified [Samples.blank; Samples.lagos]
    = "Entities found:  (location), Lagos (location)."
  ∧ format_analysis_results None
      (Some (entities_result_of [Samples.blank; Samples.lagos]))
    ≠ entities_sentence_as_specified [Samples.blank; Samples.lagos]
  ∧ format_analysis_results None (Some (entities_result_of [Samples.blank]))
    = "Analysis completed. No significant patterns detected.".
Proof. by split_and!; vm_compute. Qed.

(** C5, amended: for an entities result with entities, the formatter
    looks at the first ten only and renders those of them that have a
    non-empty text, each as ["{text} ({type})"], joined with [", "] after
    ["Entities found: "]; when all of the first ten have a text, that is
    every one of them; a single entity Lagos of type location, with no
    sentiment, gives ["Entities found: Lagos (location)."]. *)
Theorem entities_rendering (s : option sentiment_dict)
    (ents : list entity_dict) (n : nat) (data : entities_payload) :
  let d := {| entities := Some ents; entity_count := n;
              entities_full_data := data |} in
  format_analysis_results s (Some d) =
    match sentiment_part s, shown ents with
    | Some sp, _ :: _ =>
        sp +:+ ". " +:+
        ("Entities found: " +:+ Py.join ", " (rendered <$> shown ents)) +:+ "."
    | None, _ :: _ =>
        ("Entities found: " +:+ Py.join ", " (rendered <$> shown ents)) +:+ "."
    | Some sp, [] => sp +:+ "."
    | None, [] => "Analysis completed. No significant patterns detected."
    end
  ∧ shown ents `sublist_of` take 10 ents
  ∧ length (shown ents) ≤ 10
  ∧ (Forall (λ e, has_text e = true) (take 10 ents) → ents ≠ [] →
     format_analysis_results None (Some d) = entities_sentence_as_specified ents)
  ∧ format_analysis_results None (Some (entities_result_of [Samples.lagos]))
    = "Entities found: Lagos (location).".
Proof.
  intros d. split_and!.
  - rewrite format_cases. unfold entities_part, d; simpl.
    by destruct (sentiment_part s), (shown ents).
  - apply sublist_filter.
  - apply shown_at_most_ten.
  - intros Hall Hne. rewrite format_cases. unfold entities_part, d; simpl.
    rewrite shown_all by done.
    destruct ents as [|e ents']; [done|].
    unfold entities_sentence_as_specified. simpl. by rewrite append_assoc.
  - by vm_compute.
Qed.

(** C10: the formatter skips an entity whose ["word"] is missing or
    empty and writes ["unknown"] for a missing ["entity"]; it cuts the
    list to its first ten entries before it skips; so when none of the
    first ten has a text the "Entities found" part is left out, whatever
    the later entities are.  The text the formatter returns is given in
    full: the sentiment part, then the entities of the first ten that
    have a text, each as its text and its type (or ["unknown"]) in
    brackets. *)
Theorem entities_without_text_skipped (s : option sentiment_dict)
    (ents : list entity_dict) (n : nat) (data : entities_payload)
    (acc : list string) (e : entity_dict) :
  let d := {| entities := Some ents; entity_count := n;
              entities_full_data := data |} in
  (has_text e = false ↔ word e = None ∨ word e = Some "")
  ∧ (has_text e = false → format_entity_step acc e = acc)
  ∧ (∀ w, word e = Some w → w ≠ "" → entity e = None →
          format_entity_step acc e = acc ++ [w +:+ " (unknown)"])
  ∧ fold_left format_entity_step (take 10 ents) []
    = rendered <$> filter (λ e, has_text e) (take 10 ents)
  ∧ format_analysis_results s (Some d)
    = format_analysis_results s
        (Some {| entities := Some (take 10 ents); entity_count := n;
                 entities_full_data := data |})
  ∧ (Forall (λ e, has_text e = false) (take 10 ents) →
     format_analysis_results s (Some d) = format_analysis_results s None)
  ∧ format_analysis_results None
      (Some (entities_result_of (replicate 10 Samples.nameless ++ [Samples.lagos])))
    = "Analysis completed. No significant patterns detected."
  ∧ format_analysis_results s (Some d)
    = match sentiment_part s, filter (λ e, has_text e) (take 10 ents) with
      | Some sp, e1 :: es =>
          sp +:+ ". " +:+
          ("Entities found: " +:+ Py.join ", " (rendered <$> e1 :: es)) +:+ "."
      | None, e1 :: es =>
          ("Entities found: " +:+ Py.join ", " (rendered <$> e1 :: es)) +:+ "."
      | Some sp, [] => sp +:+ "."
      | None, [] => "Analysis completed. No significant patterns detected."
      end
  ∧ (∀ w, word e = Some w → w ≠ "" →
          rendered e
          = w +:+ " (" +:+ match entity e with
                           | Some t => t
                           | None => "unknown"
                           end +:+ ")")
  ∧ (∀ w, word e = Some w → w ≠ "" → entity e = None →
          format_analysis_results None (Some (entities_result_of [e]))
          = "Entities found: " +:+ w +:+ " (unknown)" +:+ ".")
  ∧ (has_text e = false →
     format_analysis_results None (Some (entities_result_of [e; Samples.lagos]))
     = "Entities found: Lagos (location).")
  ∧ (Forall (λ e, has_text e = false) (take 10 ents) →
     format_analysis_results s (Some d)
     = match sentiment_part s with
       | Some sp => sp +:+ "."
       | None => "Analysis completed. No significant patterns detected."
       end)
  ∧ format_analysis_results None (Some (entities_result_of [Cases.kano]))
    = "Entities found: Kano (unknown)."
  ∧ format_analysis_results None
      (Some (entities_result_of (replicate 9 Samples.nameless
                                 ++ [Cases.kano; Samples.lagos])))
    = "Entities found: Kano (unknown).".
Proof.
  intros d.
  assert (format_analysis_results s (Some d)
          = match sentiment_part s, filter (λ e, has_text e) (take 10 ents) with
            | Some sp, e1 :: es =>
                sp +:+ ". " +:+
                ("Entities found: " +:+ Py.join ", " (rendered <$> e1 :: es))
                +:+ "."
            | None, e1 :: es =>
                ("Entities found: " +:+ Py.join ", " (rendered <$> e1 :: es))
                +:+ "."
            | Some sp, [] => sp +:+ "."
            | None, [] => "Analysis completed. No significant patterns detected."
            end) as Hexact.
  { rewrite format_cases. unfold entities_part, d; simpl. unfold shown.
    by destruct (sentiment_part s), (filter _ (take 10 ents)). }
  split_and!.
  - unfold has_text.
    destruct (word e) as [[|c w]|]; (split; [intros ?|intros [?|?]]);
      first [discriminate | reflexivity | by left | by right].
  - apply format_entity_step_no_text.
  - intros w Hw Hne He. unfold format_entity_step. rewrite Hw, He. simpl.
    by destruct w.
  - by rewrite format_entity_loop.
  - rewrite !format_cases. unfold entities_part, shown, d; simpl.
    by rewrite take_take.
  - intros Hnone. rewrite !format_cases. unfold entities_part, d; simpl.
    by rewrite shown_none.
  - by vm_compute.
  - exact Hexact.
  - intros w Hw _. unfold rendered. rewrite Hw. simpl.
    by destruct (entity e).
  - intros w Hw Hne He. rewrite format_cases.
    unfold sentiment_part, entities_part, entities_result_of, shown. simpl.
    assert (has_text e = true) as Htext.
    { unfold has_text. rewrite Hw. by destruct w. }
    rewrite filter_cons_True by (by apply Is_true_true).
    rewrite filter_nil. simpl. unfold rendered. rewrite Hw, He. simpl.
    by rewrite !append_assoc.
  - intros Hno. rewrite format_cases.
    unfold sentiment_part, entities_part, entities_result_of, shown. simpl.
    rewrite filter_cons_False by (by apply Is_true_false).
    by vm_compute.
  - intros Hnone. rewrite Hexact.
    fold (shown ents). by rewrite shown_none.
  - by vm_compute.
  - by vm_compute.
Qed.

(** ** Sentiment vote *)

Lemma vote_cases (p n u : nat) :
  (vote p n u = "positive" ↔ n < p ∧ u < p)
  ∧ (vote p n u = "negative" ↔ p < n ∧ u < n)
  ∧ (vote p n u = "neutral" ↔ ¬ (n < p ∧ u < p) ∧ ¬ (p < n ∧ u < n)).
Proof.
  unfold vote.
  destruct (Nat.ltb_spec n p), (Nat.ltb_spec u p),
    (Nat.ltb_spec p n), (Nat.ltb_spec u n); simpl;
    split_and!; split; intros ?; first [discriminate | reflexivity | lia].
Qed.

(** C3: the overall sentiment derived from the per-sentence labels is
    ["positive"] exactly when the positive labels outnumber both the
    negative and the neutral ones, ["negative"] exactly when the negative
    labels outnumber both others, and ["neutral"] otherwise, ties
    included; counts 2, 2, 1 give ["neutral"] and counts 3, 1, 0 give
    ["positive"].  Every result that [analyze_sentiment] parses out of a
    payload is derived in this way from the labels of the payload. *)
Theorem overall_sentiment_vote (sentiment_labels : list string)
    (data : sentiments_payload) :
  let d := sentiment_of_labels sentiment_labels data in
  let p := Py.count sentiment_labels "positive" in
  let n := Py.count sentiment_labels "negative" in
  let u := Py.count sentiment_labels "neutral" in
  (positive_count d = p ∧ negative_count d = n ∧ neutral_count d = u)
  ∧ (overall_sentiment d = Some "positive" ↔ n < p ∧ u < p)
  ∧ (overall_sentiment d = Some "negative" ↔ p < n ∧ u < n)
  ∧ (overall_sentiment d = Some "neutral"
     ↔ ¬ (n < p ∧ u < p) ∧ ¬ (p < n ∧ u < n))
  ∧ vote 2 2 1 = "neutral"
  ∧ vote 3 1 0 = "positive"
  ∧ overall_sentiment
      (sentiment_of_labels
         ["positive"; "negative"; "neutral"; "negative"; "positive"] data)
    = Some "neutral"
  ∧ overall_sentiment
      (sentiment_of_labels ["positive"; "negative"; "positive"; "positive"] data)
    = Some "positive"
  ∧ (∀ r, parse_sentiments data = Some r →
          ∃ labels, r = sentiment_of_labels labels data).
Proof.
  intros d p n u.
  destruct (vote_cases p n u) as (Hp & Hn & Hu).
  change (overall_sentiment d) with (Some (vote p n u)).
  split_and!; try reflexivity;
    last (unfold parse_sentiments; intros r Hr;
          repeat case_match; simplify_eq; by eexists).
  - rewrite <- Hp. split; [by intros [= ?] | by intros ->].
  - rewrite <- Hn. split; [by intros [= ?] | by intros ->].
  - rewrite <- Hu. split; [by intros [= ?] | by intros ->].
Qed.

(** ** The translation gateway *)

Section Translation.

Context (cfg : Config).
Implicit Types (text source_lang target_lang : string).

Lemma translate_text_no_token text source_lang target_lang :
  token_missing cfg = true →
  translate_text cfg text source_lang target_lang
  = Task.raise (TranslationError "Lelapa.ai API token not configured" 500).
Proof. unfold translate_text. by intros ->. Qed.

Lemma translate_text_same text code :
  token_missing cfg = false → translate_text cfg text code code = Task.ret text.
Proof.
  unfold translate_text. intros ->. simpl. by rewrite String.eqb_refl.
Qed.

(** With a credential and two different codes, the gateway makes one
    call, lasts as long as the call, and returns the provider's
    translation or, failing that, the text it was given. *)
Lemma translate_text_remote text source_lang target_lang :
  token_missing cfg = false → source_lang ≠ target_lang →
  translate_text cfg text source_lang target_lang
  = mkTask
      (inl (default text (provider_translation cfg text source_lang target_lang)))
      (latency (sdk_translate (client cfg) text source_lang target_lang))
      [(0, SdkTranslate text source_lang target_lang)].
Proof.
  intros Htok Hne. unfold translate_text, provider_translation.
  rewrite Htok. simpl.
  apply String.eqb_neq in Hne. rewrite Hne.
  destruct (sdk_translate (client cfg) text source_lang target_lang)
    as [lat [data|e]]; simpl.
  - unfold Task.try_except, mbind, Task_bind, Task.bind,
      Task.run_in_executor; simpl.
    destruct (translation data) as [[|first rest]|]; simpl;
      try (f_equal; lia).
    destruct (translated_text first) as [[|c t]|]; simpl; f_equal; lia.
  - unfold Task.try_except, mbind, Task_bind, Task.bind,
      Task.run_in_executor; simpl.
    f_equal; lia.
Qed.

End Translation.

(** ** Coroutines *)

Section Coroutines.

Context {A B : Type}.

Lemma bind_inl (m : Task A) (k : A → Task B) (b : B) :
  result (m ≫= k) = inl b ↔ ∃ a, result m = inl a ∧ result (k a) = inl b.
Proof.
  unfold mbind, Task_bind, Task.bind.
  destruct (result m) as [a|e]; simpl.
  - split; [by exists a | by intros (a' & [= <-] & ?)].
  - split; [done | by intros (a' & [=] & ?)].
Qed.

(** A [try] whose handler returns a value for every exception never
    raises. *)
Lemma try_except_returns (m : Task A) (h : exn → option (Task A)) :
  (∀ e, ∃ a, h e = Some (mret a)) →
  ∃ a, result (Task.try_except m h) = inl a.
Proof.
  intros Hh. unfold Task.try_except. destruct (result m) as [a|e] eqn:Hm.
  - by exists a.
  - destruct (Hh e) as (a & ->). by exists a.
Qed.

Lemma wait_for_late (m : Task A) (timeout : nat) :
  timeout < elapsed m → result (Task.wait_for m timeout) = inr TimeoutError.
Proof.
  intros Hlate. unfold Task.wait_for.
  destruct (Nat.leb_spec (elapsed m) timeout); [lia|done].
Qed.

Lemma wait_for_in_time (m : Task A) (timeout : nat) :
  elapsed m ≤ timeout → Task.wait_for m timeout = m.
Proof.
  intros Hin. unfold Task.wait_for.
  destruct (Nat.leb_spec (elapsed m) timeout); [done|lia].
Qed.

Lemma gather_both (m1 : Task A) (m2 : Task B) (a : A) (b : B) :
  result m1 = inl a → result m2 = inl b →
  Task.gather m1 m2
  = mkTask (inl (a, b)) (elapsed m1 `max` elapsed m2) (started m1 ++ started m2).
Proof. unfold Task.gather. by intros -> ->. Qed.

End Coroutines.

(** ** The pipeline steps *)

Section Steps.

Context (cfg : Config).
Implicit Types (text language : string).

Lemma run_sentiment_returns text :
  ∃ r, result (run_sentiment cfg text) = inl r.
Proof. apply try_except_returns. intros e. by eexists. Qed.

Lemma run_entities_returns text :
  ∃ r, result (run_entities cfg text) = inl r.
Proof. apply try_except_returns. intros e. by eexists. Qed.

(** The shared deadline fires before both analyses are done: the step
    reports a timeout and leaves both results at [None]. *)
Lemma analyze_step_timeout text :
  3 < elapsed (run_sentiment cfg text) `max` elapsed (run_entities cfg text) →
  result (analyze_step cfg text)
  = inl {| a_timed_out := true;
           a_sentiment_result := None;
           a_entities_result := None |}.
Proof.
  intros Hlate.
  destruct (run_sentiment_returns text) as (rs & Hs).
  destruct (run_entities_returns text) as (re & He).
  unfold analyze_step.
  rewrite (gather_both _ _ _ _ Hs He).
  unfold Task.try_except, mbind, Task_bind, Task.bind.
  by rewrite wait_for_late.
Qed.

(** Both analyses are done by the deadline: the step keeps what each
    returned. *)
Lemma analyze_step_in_time text rs re :
  result (run_sentiment cfg text) = inl rs →
  result (run_entities cfg text) = inl re →
  elapsed (run_sentiment cfg text) `max` elapsed (run_entities cfg text) ≤ 3 →
  result (analyze_step cfg text)
  = inl {| a_timed_out := false;
           a_sentiment_result := rs;
           a_entities_result := re |}.
Proof.
  intros Hs He Hin.
  unfold analyze_step.
  rewrite (gather_both _ _ _ _ Hs He).
  unfold Task.try_except, mbind, Task_bind, Task.bind.
  by rewrite wait_for_in_time.
Qed.

Lemma analyze_step_returns text : ∃ a, result (analyze_step cfg text) = inl a.
Proof.
  destruct (run_sentiment_returns text) as (rs & Hs).
  destruct (run_entities_returns text) as (re & He).
  destruct (Nat.le_gt_cases
              (elapsed (run_sentiment cfg text) `max` elapsed (run_entities cfg text)) 3).
  - eexists. by apply analyze_step_in_time.
  - eexists. by apply analyze_step_timeout.
Qed.

(** "Step 4" always yields a text: the analysis text itself, or the
    provider's translation of it when the language is not English and
    the translation arrived in time. *)
Lemma translate_back_step_result language text code :
  ∃ t, result (translate_back_step cfg language text code) = inl t
       ∧ (language = "English" → t = text)
       ∧ (t = text
          ∨ (language ≠ "English"
             ∧ provider_translation cfg text "eng_Latn" code = Some t
             ∧ latency (sdk_translate (client cfg) text "eng_Latn" code) ≤ 3)).
Proof.
  unfold translate_back_step.
  destruct (String.eqb_spec language "English") as [->|Hlang]; simpl.
  { exists text. by split_and!; [| |left]. }
  destruct (token_missing cfg) eqn:Htok.
  { rewrite translate_text_no_token by done.
    exists text. by split_and!; [| |left]. }
  destruct (decide ("eng_Latn" = code)) as [<-|Hcode].
  { rewrite translate_text_same by done.
    exists text. by split_and!; [| |left]. }
  rewrite translate_text_remote by done.
  unfold Task.wait_for, Task.try_except; simpl.
  destruct (Nat.leb_spec
              (latency (sdk_translate (client cfg) text "eng_Latn" code)) 3);
    simpl.
  - destruct (provider_translation cfg text "eng_Latn" code) as [t|] eqn:Ht;
      simpl.
    + exists t. split_and!; [done|done|by right].
    + exists text. by split_and!; [| |left].
  - exists text. by split_and!; [| |left].
Qed.

End Steps.

(** ** The handlers *)

(** Unfolds the handler monad down to state passing. *)
Ltac run_handler :=
  unfold Handler.try_except, mbind, H_bind, Handler.bind, Handler.await,
    Handler.os_urandom, mret, H_ret, Handler.ret, Handler.raise.

Section Handlers.

Context (cfg : Config).

(** What the locals of [analyze_text] hold when the steps are done. *)
Lemma analyze_text_steps_inv (request : TextAnalysisRequest) (l : locals) :
  result (analyze_text_steps cfg request) = inl l →
  ∃ a, result (analyze_step cfg (english_text l)) = inl a
       ∧ timed_out l = a_timed_out a
       ∧ sentiment_result l = a_sentiment_result a
       ∧ entities_result l = a_entities_result a
       ∧ analysis_text l = format_step a
       ∧ result (translate_back_step cfg (req_language request) (format_step a)
                   (get_language_code (req_language request)))
         = inl (response_text l).
Proof.
  unfold analyze_text_steps.
  intros (et & _ & (a & Ha & (rt & Hrt & Hl)%bind_inl)%bind_inl)%bind_inl.
  injection Hl as <-. simpl. by exists a.
Qed.

Lemma analyze_audio_steps_inv (language text : string) (l : locals) :
  result (analyze_audio_steps cfg language text) = inl l →
  ∃ a, result (analyze_step cfg text) = inl a
       ∧ english_text l = text
       ∧ timed_out l = a_timed_out a
       ∧ sentiment_result l = a_sentiment_result a
       ∧ entities_result l = a_entities_result a
       ∧ analysis_text l = format_step a
       ∧ result (translate_back_step cfg language (format_step a)
                   (get_language_code language))
         = inl (response_text l).
Proof.
  unfold analyze_audio_steps.
  intros (a & Ha & (rt & Hrt & Hl)%bind_inl)%bind_inl.
  injection Hl as <-. simpl. by exists a.
Qed.

(** A response of [analyze_text] is built from the locals of the steps
    and from eight fresh bytes. *)
Lemma analyze_text_response (request : TextAnalysisRequest)
    (s s' : hstate) (resp : AnalysisResponse) :
  analyze_text cfg request s = (inl resp, s') →
  ∃ l, result (analyze_text_steps cfg request) = inl l
       ∧ resp = {| id := "analysis_"
                         +:+ Py.hex (map (entropy cfg) (seq (cursor s) 8));
                   content := response_text l;
                   language := req_language request;
                   sentiment := sentiment_result l;
                   entities_field := entities_result l |}
       ∧ s' = mkHState (cursor s + 8)
                (log s ++ (started (analyze_text_steps cfg request)).*2).
Proof.
  unfold analyze_text.
  destruct (negb (Py.truthy (Py.strip (req_content request)))); [done|].
  destruct (negb (contains LANGUAGE_MAP (req_language request))); [done|].
  destruct (token_missing cfg); [done|].
  run_handler.
  destruct (result (analyze_text_steps cfg request)) as [l|e]; simpl.
  - intros [= <- <-]. by exists l.
  - by destruct e.
Qed.

(** The steps of [analyze_text] never raise: every exception of a step
    is caught inside it. *)
Lemma analyze_text_steps_returns (request : TextAnalysisRequest) :
  ∃ l, result (analyze_text_steps cfg request) = inl l.
Proof.
  unfold analyze_text_steps.
  set (step1 := if negb _ then _ else _).
  assert (∃ et, result step1 = inl et) as (et & Het).
  { unfold step1. destruct (negb _); [|by eexists].
    apply try_except_returns. intros []; by eexists. }
  destruct (analyze_step_returns cfg et) as (a & Ha).
  destruct (translate_back_step_result cfg (req_language request) (format_step a)
              (get_language_code (req_language request))) as (t & Ht & _).
  eexists. apply bind_inl. exists et. split; [done|].
  apply bind_inl. exists a. split; [done|].
  apply bind_inl. exists t. by split.
Qed.

Lemma analyze_audio_steps_returns (language text : string) :
  ∃ l, result (analyze_audio_steps cfg language text) = inl l.
Proof.
  unfold analyze_audio_steps.
  destruct (analyze_step_returns cfg text) as (a & Ha).
  destruct (translate_back_step_result cfg language (format_step a)
              (get_language_code language)) as (t & Ht & _).
  eexists. apply bind_inl. exists a. split; [done|].
  apply bind_inl. exists t. by split.
Qed.

(** A request that passes the three checks of [analyze_text] gets a
    response. *)
Lemma analyze_text_responds (request : TextAnalysisRequest) (s : hstate) :
  Py.truthy (Py.strip (req_content request)) = true →
  contains LANGUAGE_MAP (req_language request) = true →
  token_missing cfg = false →
  ∃ resp s', analyze_text cfg request s = (inl resp, s').
Proof.
  intros Hcontent Hlang Htok. unfold analyze_text.
  rewrite Hcontent, Hlang, Htok. simpl.
  destruct (analyze_text_steps_returns request) as (l & Hl).
  run_handler. rewrite Hl. simpl. by eexists _, _.
Qed.

Lemma stt_english : STT_LANGUAGE_MAP !! "English" = Some "eng".
Proof. by vm_compute. Qed.

(** What [transcribe_audio] does for the language ["English"], with a
    credential: one call, then the result or the error. *)
Lemma transcribe_audio_english (file : UploadFile) (s : hstate) :
  token_missing cfg = false →
  let s1 := mkHState (cursor s) (log s ++ [SdkTranscribe "eng"]) in
  transcribe_audio cfg file "English" s =
    match reply (sdk_transcribe (client cfg) (file_bytes file) "eng") with
    | inl data =>
        match Py.get (data_transcription_text data) "" with
        | "" =>
            (inr (TranscriptionError "No transcription text in response" 500), s1)
        | String c t =>
            (inl {| tr_id :=
                      Py.get (data_id data)
                        ("trans_"
                         +:+ Py.hex (map (entropy cfg) (seq (cursor s) 8)));
                    tr_transcription_text := String c t;
                    tr_language_code := Py.get (data_language_code data) "eng";
                    tr_status :=
                      Py.get (data_transcription_status data) "COMPLETED" |},
             mkHState (cursor s + 8) (log s ++ [SdkTranscribe "eng"]))
        end
    | inr (TranscriptionError message status_code) =>
        (inr (TranscriptionError message status_code), s1)
    | inr e =>
        (inr (TranscriptionError ("Transcription failed: " +:+ exn_str e) 500), s1)
    end.
Proof.
  intros Htok s1. unfold transcribe_audio. rewrite Htok, stt_english. simpl.
  run_handler. unfold Task.run_in_executor. simpl.
  destruct (reply (sdk_transcribe (client cfg) (file_bytes file) "eng"))
    as [data|e]; simpl.
  - by destruct (Py.get (data_transcription_text data) "") as [|c t].
  - by destruct e.
Qed.

(** A response of [analyze_audio] is built from the transcription, the
    locals of the steps, and nothing else. *)
Lemma analyze_audio_response (file : UploadFile) (language : string)
    (s s' : hstate) (resp : TranscriptionResponse) :
  analyze_audio cfg file language s = (inl resp, s') →
  ∃ tr s1 l,
    transcribe_audio cfg file "English" s = (inl tr, s1)
    ∧ result (analyze_audio_steps cfg language (tr_transcription_text tr)) = inl l
    ∧ resp = {| t_id := tr_id tr;
                t_transcription_text := tr_transcription_text tr;
                t_analysis := response_text l;
                t_language := language;
                t_sentiment := sentiment_result l;
                t_entities := entities_result l |}
    ∧ cursor s' = cursor s1 + 8
    ∧ token_missing cfg = false.
Proof.
  unfold analyze_audio.
  destruct (negb (contains STT_LANGUAGE_MAP language)); [done|].
  destruct (token_missing cfg) eqn:Htok; [done|].
  unfold Handler.try_except, mbind, H_bind, Handler.bind.
  destruct (transcribe_audio cfg file "English" s) as [[tr|e] s1]; simpl.
  - destruct (Py.truthy (tr_transcription_text tr)); simpl; [|done].
    unfold Handler.await, Handler.os_urandom, mret, H_ret, Handler.ret.
    destruct (result (analyze_audio_steps cfg language (tr_transcription_text tr)))
      as [l|e] eqn:Hl; simpl.
    + intros [= <- <-]. by exists tr, s1, l.
    + by destruct e.
  - by destruct e.
Qed.

(** An audio request that passes the two checks of [analyze_audio] and
    whose transcription is not empty gets a response, around that
    transcription. *)
Lemma analyze_audio_responds (file : UploadFile) (language : string)
    (s : hstate) (data : transcribe_payload) (c : ascii) (t : string) :
  contains STT_LANGUAGE_MAP language = true →
  token_missing cfg = false →
  reply (sdk_transcribe (client cfg) (file_bytes file) "eng") = inl data →
  Py.get (data_transcription_text data) "" = String c t →
  ∃ resp s', analyze_audio cfg file language s = (inl resp, s')
             ∧ t_transcription_text resp = String c t.
Proof.
  intros Hlang Htok Hdata Htext. unfold analyze_audio.
  rewrite Hlang, Htok. simpl.
  unfold Handler.try_except at 1, mbind at 1, H_bind at 1, Handler.bind at 1.
  rewrite transcribe_audio_english, Hdata, Htext by done. simpl.
  destruct (analyze_audio_steps_returns language (String c t)) as (l & Hl).
  run_handler. rewrite Hl. simpl. by eexists _, _.
Qed.

End Handlers.

(** ** Scenarios *)

(** An English request: no translation, one call for each analysis. *)
Example english_scenario :
  (analyze_text (Samples.config Samples.prompt Samples.counting)
     Samples.english_request Samples.idle).2
  = mkHState 8 [ SdkGetSentiments "Harvest was excellent this year.";
                 SdkGetEntities "Harvest was excellent this year" ]
  ∧ language <$> response_of
                   (analyze_text (Samples.config Samples.prompt Samples.counting)
                      Samples.english_request Samples.idle)
    = Some "English".
Proof. by split; vm_compute. Qed.

(** An isiZulu request: translated to English, analysed, translated back. *)
Example zulu_scenario :
  (analyze_text (Samples.config Samples.prompt Samples.counting)
     Samples.zulu_request Samples.idle).2
  = mkHState 8
      [ SdkTranslate "Ukuvuna kwalo nyaka kuhle kakhulu" "zul_Latn" "eng_Latn";
        SdkGetSentiments "[eng_Latn] Ukuvuna kwalo nyaka kuhle kakhulu.";
        SdkGetEntities "[eng_Latn] Ukuvuna kwalo nyaka kuhle kakhulu";
        SdkTranslate "Sentiment: positive. Entities found: Lagos (location)."
          "eng_Latn" "zul_Latn" ].
Proof. by vm_compute. Qed.

(** No credential: both handlers answer 503 and call nothing. *)
Example unconfigured_scenario :
  analyze_text Samples.unconfigured Samples.zulu_request Samples.idle
  = (inr (HTTPException 503 "Lelapa.ai API token not configured"), Samples.idle)
  ∧ analyze_audio Samples.unconfigured Samples.recording "Afrikaans" Samples.idle
    = (inr (HTTPException 503 "Lelapa.ai API token not configured"), Samples.idle).
Proof. by split; vm_compute. Qed.

(** ** Claims on the pipeline *)

(** C1, refuted as stated: the entity analysis is still running when the
    three time units are over (the sentiment analysis was done after
    one); the request asks for isiZulu, and the text of the response is
    the provider's translation of the fixed sentence, not the sentence. *)
Lemma timeout_sentence_is_translated :
  elapsed (run_sentiment (Samples.config Samples.slow_entities Samples.counting)
             "[eng_Latn] Ukuvuna kwalo nyaka kuhle kakhulu") = 1
  ∧ elapsed (run_entities (Samples.config Samples.slow_entities Samples.counting)
               "[eng_Latn] Ukuvuna kwalo nyaka kuhle kakhulu") = 5
  ∧ response_of
      (analyze_text (Samples.config Samples.slow_entities Samples.counting)
         Samples.zulu_request Samples.idle)
    = Some {| id := "analysis_a1a2a3a4a5a6a7a8";
              content := "[zul_Latn] The analysis service is not responding. Please try again later.";
              language := "isiZulu";
              sentiment := None;
              entities_field := None |}
  ∧ "[zul_Latn] The analysis service is not responding. Please try again later."
    ≠ REPLACEMENT_SENTENCE.
Proof. by split_and!; vm_compute. Qed.

(** C1, amended: a text request that passes the checks, and an audio
    request that passes them and is transcribed, get a response.  When
    the shared timeout of three time units is over before both analyses
    are done, the analysis text that "Step 3" produces is exactly the
    fixed sentence and the response carries neither sentiment nor
    entities, whatever had been completed; the text of the response is
    that sentence for a request in English, and otherwise the sentence or
    the provider's translation of it. *)
Theorem analysis_timeout_degrades (cfg : Config) :
  (∀ request s,
     Py.truthy (Py.strip (req_content request)) = true →
     contains LANGUAGE_MAP (req_language request) = true →
     token_missing cfg = false →
     ∃ resp s' l, analyze_text cfg request s = (inl resp, s')
                  ∧ result (analyze_text_steps cfg request) = inl l)
  ∧ (∀ file language s data c t,
       contains STT_LANGUAGE_MAP language = true →
       token_missing cfg = false →
       reply (sdk_transcribe (client cfg) (file_bytes file) "eng") = inl data →
       Py.get (data_transcription_text data) "" = String c t →
       ∃ resp s', analyze_audio cfg file language s = (inl resp, s')
                  ∧ t_transcription_text resp = String c t)
  ∧ (∀ request s s' resp l,
     analyze_text cfg request s = (inl resp, s') →
     result (analyze_text_steps cfg request) = inl l →
     3 < elapsed (run_sentiment cfg (english_text l))
         `max` elapsed (run_entities cfg (english_text l)) →
     timed_out l = true
     ∧ analysis_text l = REPLACEMENT_SENTENCE
     ∧ sentiment resp = None
     ∧ entities_field resp = None
     ∧ (req_language request = "English" → content resp = REPLACEMENT_SENTENCE)
     ∧ (content resp = REPLACEMENT_SENTENCE
        ∨ (req_language request ≠ "English"
           ∧ provider_translation cfg REPLACEMENT_SENTENCE "eng_Latn"
               (get_language_code (req_language request))
             = Some (content resp))))
  ∧ (∀ file language s s' resp,
       analyze_audio cfg file language s = (inl resp, s') →
       3 < elapsed (run_sentiment cfg (t_transcription_text resp))
           `max` elapsed (run_entities cfg (t_transcription_text resp)) →
       (∃ l, result (analyze_audio_steps cfg language (t_transcription_text resp))
             = inl l
             ∧ timed_out l = true
             ∧ analysis_text l = REPLACEMENT_SENTENCE)
       ∧ t_sentiment resp = None
       ∧ t_entities resp = None
       ∧ (language = "English" → t_analysis resp = REPLACEMENT_SENTENCE)
       ∧ (t_analysis resp = REPLACEMENT_SENTENCE
          ∨ (language ≠ "English"
             ∧ provider_translation cfg REPLACEMENT_SENTENCE "eng_Latn"
                 (get_language_code language)
               = Some (t_analysis resp)))).
Proof.
  split_and!.
  - intros request s Hcontent Hlang Htok.
    destruct (analyze_text_responds cfg request s) as (resp & s' & Hrun);
      [done..|].
    destruct (analyze_text_steps_returns cfg request) as (l & Hl).
    by exists resp, s', l.
  - intros file language s data c t. apply analyze_audio_responds.
  - intros request s s' resp l Hrun Hl Hlate.
    apply analyze_text_response in Hrun as (l' & Hl' & -> & _).
    rewrite Hl in Hl'. injection Hl' as <-. simpl.
    apply analyze_text_steps_inv in Hl
      as (a & Ha & Hto & Hs & He & Hat & Hback).
    rewrite analyze_step_timeout in Ha by done. injection Ha as <-.
    simpl in *. change (format_step _) with REPLACEMENT_SENTENCE in *.
    destruct (translate_back_step_result cfg (req_language request)
                REPLACEMENT_SENTENCE (get_language_code (req_language request)))
      as (t & Ht & Heng & Hor).
    rewrite Ht in Hback. injection Hback as <-.
    split_and!; try done. destruct Hor as [?|(? & ? & _)]; [by left|by right].
  - intros file language s s' resp Hrun Hlate.
    apply analyze_audio_response in Hrun as (tr & s1 & l & _ & Hl & -> & _).
    simpl in *.
    pose proof Hl as Hl'.
    apply analyze_audio_steps_inv in Hl
      as (a & Ha & _ & Hto & Hs & He & Hat & Hback).
    rewrite analyze_step_timeout in Ha by done. injection Ha as <-.
    simpl in *. change (format_step _) with REPLACEMENT_SENTENCE in *.
    destruct (translate_back_step_result cfg language
                REPLACEMENT_SENTENCE (get_language_code language))
      as (t & Ht & Heng & Hor).
    rewrite Ht in Hback. injection Hback as <-.
    split_and!; try done.
    + by exists l.
    + destruct Hor as [?|(? & ? & _)]; [by left|by right].
Qed.

Lemma analysis_timeout_degrades_witness :
  ∃ resp,
    response_of
      (analyze_text (Samples.config Samples.slow_entities Samples.counting)
         Samples.english_request Samples.idle) = Some resp
    ∧ content resp = REPLACEMENT_SENTENCE
    ∧ sentiment resp = None
    ∧ entities_field resp = None.
Proof.
  set (cfg := Samples.config Samples.slow_entities Samples.counting).
  destruct (analyze_text cfg Samples.english_request Samples.idle)
    as [[resp|e] s'] eqn:Hrun; [|by vm_compute in Hrun].
  destruct (result (analyze_text_steps cfg Samples.english_request))
    as [l|e] eqn:Hl; [|by vm_compute in Hl].
  assert (english_text l = "Harvest was excellent this year") as Htext.
  { vm_compute in Hl. by injection Hl as <-. }
  destruct (proj1 (proj2 (proj2 (analysis_timeout_degrades cfg))) _ _ _ _ _ Hrun Hl)
    as (_ & _ & Hs & He & Hc & _).
  { rewrite Htext. vm_compute. lia. }
  exists resp. split_and!; [done| |done|done].
  by apply Hc.
Defined.

(** C6, refuted as stated: with no credential in the environment the
    gateway raises before it compares the two codes. *)
Lemma translate_same_code_without_token :
  result (translate_text Samples.unconfigured "hello" "eng_Latn" "eng_Latn")
  = inr (TranslationError "Lelapa.ai API token not configured" 500)
  ∧ result (translate_text Samples.unconfigured "hello" "eng_Latn" "eng_Latn")
    ≠ inl "hello".
Proof. by split. Qed.

(** C6, amended: for equal source and target codes the gateway starts no
    remote call; when the credential is configured it returns the text
    unchanged, at once. *)
Theorem translate_same_code (cfg : Config) (text code : string) :
  started (translate_text cfg text code code) = []
  ∧ (token_missing cfg = false →
     translate_text cfg text code code = mkTask (inl text) 0 []).
Proof.
  split.
  - destruct (token_missing cfg) eqn:Htok.
    + by rewrite translate_text_no_token.
    + by rewrite translate_text_same.
  - apply translate_text_same.
Qed.

Lemma translate_same_code_witness :
  translate_text (Samples.config Samples.prompt Samples.zeros)
    "Harvest was excellent this year" "eng_Latn" "eng_Latn"
  = mkTask (inl "Harvest was excellent this year") 0 [].
Proof.
  exact (proj2 (translate_same_code (Samples.config Samples.prompt Samples.zeros)
                  "Harvest was excellent this year" "eng_Latn")
           eq_refl).
Defined.




(** C8: when the provider fails to transcribe, or returns no text,
    [analyze_audio] answers with an error (of its own kind for the empty
    transcript) and the only call it has made is the transcription: no
    analysis and no translation is attempted. *)
Theorem transcription_failure_is_fatal (cfg : Config) (file : UploadFile)
    (language : string) (s : hstate) :
  contains STT_LANGUAGE_MAP language = true →
  token_missing cfg = false →
  (∀ e, reply (sdk_transcribe (client cfg) (file_bytes file) "eng") = inr e →
        analyze_audio cfg file language s
        = (inr (transcription_rejection e),
           mkHState (cursor s) (log s ++ [SdkTranscribe "eng"])))
  ∧ (∀ data, reply (sdk_transcribe (client cfg) (file_bytes file) "eng") = inl data →
             Py.get (data_transcription_text data) "" = "" →
             analyze_audio cfg file language s
             = (inr (HTTPException 500 "No transcription text in response"),
                mkHState (cursor s) (log s ++ [SdkTranscribe "eng"])))
  ∧ (∀ e, match e with
          | TranscriptionError _ _ => True
          | _ => transcription_rejection e
                 ≠ HTTPException 500 "No transcription text in response"
          end).
Proof.
  intros Hlang Htok. split_and!.
  - intros e He. unfold analyze_audio. rewrite Hlang, Htok. simpl.
    unfold Handler.try_except, mbind, H_bind, Handler.bind.
    rewrite transcribe_audio_english, He by done.
    by destruct e.
  - intros data Hdata Hempty. unfold analyze_audio. rewrite Hlang, Htok. simpl.
    unfold Handler.try_except, mbind, H_bind, Handler.bind.
    by rewrite transcribe_audio_english, Hdata, Hempty by done.
  - intros e. destruct e; try done; simpl; rewrite !append_cons; congruence.
Qed.

Lemma transcription_failure_is_fatal_witness :
  analyze_audio (Samples.config Samples.broken Samples.counting)
    Samples.recording "Afrikaans" Samples.idle
  = (inr (HTTPException 500 "No transcription text in response"),
     mkHState 0 [SdkTranscribe "eng"])
  ∧ analyze_audio (Samples.config Samples.deaf Samples.counting)
      Samples.recording "Afrikaans" Samples.idle
    = (inr (HTTPException 500 "Transcription failed: connection reset"),
       mkHState 0 [SdkTranscribe "eng"]).
Proof.
  split.
  - refine (proj1 (proj2 (transcription_failure_is_fatal
                            (Samples.config Samples.broken Samples.counting)
                            Samples.recording "Afrikaans" Samples.idle _ _))
              Samples.empty_transcript _ _);
      by vm_compute.
  - refine (proj1 (transcription_failure_is_fatal
                     (Samples.config Samples.deaf Samples.counting)
                     Samples.recording "Afrikaans" Samples.idle _ _)
              (ProviderError "connection reset") _);
      by vm_compute.
Defined.

(** ** Identifiers *)

Lemma unhex_hex (b : Byte.byte) :
  unhex_pair (Py.hex_digit (Byte.to_N b / 16)) (Py.hex_digit (Byte.to_N b mod 16))
  = b.
Proof. by destruct b. Qed.

(** Two byte strings with the same hexadecimal spelling are equal. *)
Lemma hex_inj (bs1 bs2 : list Byte.byte) : Py.hex bs1 = Py.hex bs2 → bs1 = bs2.
Proof.
  revert bs2; induction bs1 as [|b1 bs1 IH]; intros [|b2 bs2]; simpl;
    [done|done|done|].
  intros [= H1 H2 Hrest].
  rewrite <- (unhex_hex b1), <- (unhex_hex b2), H1, H2.
  f_equal. by apply IH.
Qed.

(** C9, refuted as stated: the identifier of an audio response is the
    identifier the provider gave to the transcription; it is the same
    whatever the entropy, and the same again for a later request. *)
Lemma audio_id_is_provider_id :
  data_id Samples.transcript = Some "job-42"
  ∧ t_id <$> response_of
               (analyze_audio (Samples.config Samples.prompt Samples.counting)
                  Samples.recording "Afrikaans" Samples.idle)
    = Some "job-42"
  ∧ t_id <$> response_of
               (analyze_audio (Samples.config Samples.prompt Samples.zeros)
                  Samples.recording "Afrikaans" Samples.idle)
    = Some "job-42"
  ∧ t_id <$> response_of
               (analyze_audio (Samples.config Samples.prompt Samples.counting)
                  Samples.recording "English" (mkHState 16 []))
    = Some "job-42".
Proof. by split_and!; vm_compute. Qed.

(** C9, amended: the identifier of a text response is ["analysis_"]
    followed by the hexadecimal spelling of eight bytes drawn for that
    request; the identifier of an audio response is the identifier the
    provider gave to the transcription and, only when the provider gave
    none, ["trans_"] followed by eight bytes drawn for that request.
    Different draws spell different identifiers, and nothing is kept
    from one request to the next but the position in the entropy. *)
Theorem response_identifiers (cfg : Config) :
  (∀ request s s' resp,
     analyze_text cfg request s = (inl resp, s') →
     id resp = "analysis_" +:+ Py.hex (map (entropy cfg) (seq (cursor s) 8))
     ∧ cursor s' = cursor s + 8)
  ∧ (∀ file language s s' resp,
       analyze_audio cfg file language s = (inl resp, s') →
       ∃ data,
         reply (sdk_transcribe (client cfg) (file_bytes file) "eng") = inl data
         ∧ t_id resp
           = Py.get (data_id data)
               ("trans_" +:+ Py.hex (map (entropy cfg) (seq (cursor s) 8)))
         ∧ cursor s' = cursor s + 16)
  ∧ (∀ prefix bs1 bs2,
       prefix +:+ Py.hex bs1 = prefix +:+ Py.hex bs2 → bs1 = bs2).
Proof.
  split_and!.
  - intros request s s' resp Hrun.
    by apply analyze_text_response in Hrun as (l & _ & -> & ->).
  - intros file language s s' resp Hrun.
    apply analyze_audio_response in Hrun
      as (tr & s1 & l & Htr & _ & -> & Hcur & Htok).
    rewrite transcribe_audio_english in Htr by done.
    destruct (reply (sdk_transcribe (client cfg) (file_bytes file) "eng"))
      as [data|e]; [|by destruct e].
    exists data.
    destruct (Py.get (data_transcription_text data) "") as [|c t]; [done|].
    injection Htr as <- <-. simpl in *. split_and!; [done|done|lia].
  - intros prefix bs1 bs2 Heq. apply hex_inj.
    by eapply (inj (String.app prefix)).
Qed.

Lemma response_identifiers_witness :
  ∃ resp,
    response_of
      (analyze_text (Samples.config Samples.prompt Samples.counting)
         Samples.english_request Samples.idle) = Some resp
    ∧ id resp = "analysis_a1a2a3a4a5a6a7a8".
Proof.
  set (cfg := Samples.config Samples.prompt Samples.counting).
  destruct (analyze_text cfg Samples.english_request Samples.idle)
    as [[resp|e] s'] eqn:Hrun; [|by vm_compute in Hrun].
  destruct (proj1 (response_identifiers cfg) _ _ _ _ Hrun) as (Hid & _).
  exists resp. by split.
Defined.

(** * Further properties *)

(** ** Coroutines: the calls they start *)

Section TaskFacts.

Context {A B : Type}.

Lemma shift_calls (d : nat) (cs : list (nat * sdk_call)) :
  (Task.shift d cs).*2 = cs.*2.
Proof.
  unfold Task.shift. induction cs as [|c cs IH]; simpl; [done|by f_equal].
Qed.

Lemma bind_calls (m : Task A) (k : A → Task B) :
  calls (m ≫= k)
  = calls m ++ match result m with inl a => calls (k a) | inr _ => [] end.
Proof.
  unfold calls, mbind, Task_bind, Task.bind.
  destruct (result m) as [a|e]; simpl.
  - by rewrite fmap_app, shift_calls.
  - by rewrite app_nil_r.
Qed.

Lemma try_except_calls (m : Task A) (h : exn → option (Task A)) :
  calls (Task.try_except m h)
  = calls m ++ match result m with
               | inr e => match h e with Some m' => calls m' | None => [] end
               | inl _ => []
               end.
Proof.
  unfold calls, Task.try_except.
  destruct (result m) as [a|e]; [by rewrite app_nil_r|].
  destruct (h e) as [m'|]; simpl.
  - by rewrite fmap_app, shift_calls.
  - by rewrite app_nil_r.
Qed.

Lemma wait_for_calls (m : Task A) (timeout : nat) :
  calls (Task.wait_for m timeout) `sublist_of` calls m.
Proof.
  unfold calls, Task.wait_for.
  destruct (elapsed m <=? timeout); [done|].
  simpl. apply fmap_sublist, sublist_filter.
Qed.

Lemma gather_calls (m1 : Task A) (m2 : Task B) :
  calls (Task.gather m1 m2) = calls m1 ++ calls m2.
Proof.
  unfold calls, Task.gather.
  destruct (result m1), (result m2); simpl; try by rewrite fmap_app.
  destruct (elapsed m1 <=? elapsed m2); simpl; by rewrite fmap_app.
Qed.

End TaskFacts.

(** ** The retry loops of [services/analysis.py] *)

Section Retries.

Context (cfg : Config).
Implicit Types (text : string) (n attempt : nat) (rest : list nat).

(** One turn of the loop of [analyze_sentiment]. *)
Lemma sentiment_attempts_step text n attempt rest :
  let r := sdk_get_sentiments (client cfg) text attempt in
  let m := sentiment_attempts cfg text n (attempt :: rest) in
  let m' := sentiment_attempts cfg text n rest in
  match reply r with
  | inl data =>
      result m = inl (parse_sentiments data)
      ∧ elapsed m = backoff attempt + latency r
      ∧ calls m = [SdkGetSentiments text]
  | inr e =>
      if attempt <? n - 1 then
        result m = result m'
        ∧ elapsed m = backoff attempt + latency r + elapsed m'
        ∧ calls m = SdkGetSentiments text :: calls m'
      else
        result m = inl None
        ∧ elapsed m = backoff attempt + latency r
        ∧ calls m = [SdkGetSentiments text]
  end.
Proof.
  intros r m m'. subst m. cbn [sentiment_attempts]. fold m'.
  unfold calls, backoff, Task.try_except, mbind, Task_bind, Task.bind,
    Task.run_in_executor, Task.sleep, mret, Task_ret, Task.ret.
  fold r. destruct (0 <? attempt); simpl;
    destruct (reply r) as [data|e]; simpl;
    try destruct (attempt <? n - 1); simpl;
    rewrite ?shift_calls; split_and!; try done; lia.
Qed.

(** One turn of the loop of [analyze_entities]. *)
Lemma entities_attempts_step text n attempt rest :
  let r := sdk_get_entities (client cfg) text attempt in
  let m := entities_attempts cfg text n (attempt :: rest) in
  let m' := entities_attempts cfg text n rest in
  match reply r with
  | inl data =>
      result m = inl (Some (parse_entities data))
      ∧ elapsed m = backoff attempt + latency r
      ∧ calls m = [SdkGetEntities text]
  | inr e =>
      if attempt <? n - 1 then
        result m = result m'
        ∧ elapsed m = backoff attempt + latency r + elapsed m'
        ∧ calls m = SdkGetEntities text :: calls m'
      else
        result m = inl None
        ∧ elapsed m = backoff attempt + latency r
        ∧ calls m = [SdkGetEntities text]
  end.
Proof.
  intros r m m'. subst m. cbn [entities_attempts]. fold m'.
  unfold calls, backoff, Task.try_except, mbind, Task_bind, Task.bind,
    Task.run_in_executor, Task.sleep, mret, Task_ret, Task.ret.
  fold r. destruct (0 <? attempt); simpl;
    destruct (reply r) as [data|e]; simpl;
    try destruct (attempt <? n - 1); simpl;
    rewrite ?shift_calls; split_and!; try done; lia.
Qed.

End Retries.

(** What the two loops have in common: a loop over the attempts that
    returns at the first reply, goes on after an exception while an
    attempt is left, and gives up with [None] after the last one. *)
Section Loop.

Context {P R : Type}.
Variable loop : list nat → Task (option R).
Variable n : nat.
Variable rep : nat → sdk_reply P.
Variable parse : P → option R.
Variable c : sdk_call.

Hypothesis loop_nil : loop [] = Task.ret None.
Hypothesis loop_step : ∀ attempt rest,
  match reply (rep attempt) with
  | inl data =>
      result (loop (attempt :: rest)) = inl (parse data)
      ∧ elapsed (loop (attempt :: rest)) = backoff attempt + latency (rep attempt)
      ∧ calls (loop (attempt :: rest)) = [c]
  | inr e =>
      if attempt <? n - 1 then
        result (loop (attempt :: rest)) = result (loop rest)
        ∧ elapsed (loop (attempt :: rest))
          = backoff attempt + latency (rep attempt) + elapsed (loop rest)
        ∧ calls (loop (attempt :: rest)) = c :: calls (loop rest)
      else
        result (loop (attempt :: rest)) = inl None
        ∧ elapsed (loop (attempt :: rest)) = backoff attempt + latency (rep attempt)
        ∧ calls (loop (attempt :: rest)) = [c]
  end.

Lemma loop_returns (attempts : list nat) : ∃ r, result (loop attempts) = inl r.
Proof.
  induction attempts as [|attempt rest IH].
  - rewrite loop_nil. by eexists.
  - pose proof (loop_step attempt rest) as Hstep.
    destruct (reply (rep attempt)) as [data|e].
    + destruct Hstep as (-> & _). by eexists.
    + destruct (attempt <? n - 1); destruct Hstep as (-> & _);
        [done|by eexists].
Qed.

Lemma loop_calls (attempts : list nat) :
  ∃ k, k ≤ length attempts ∧ calls (loop attempts) = replicate k c.
Proof.
  induction attempts as [|attempt rest (k & Hk & IH)].
  - exists 0. by rewrite loop_nil.
  - pose proof (loop_step attempt rest) as Hstep.
    destruct (reply (rep attempt)) as [data|e].
    + destruct Hstep as (_ & _ & ->). exists 1. split; [simpl; lia|done].
    + destruct (attempt <? n - 1); destruct Hstep as (_ & _ & ->).
      * exists (S k). rewrite IH. split; [simpl; lia|done].
      * exists 1. split; [simpl; lia|done].
Qed.

(** Every attempt from [k] on raises: the loop gives up. *)
Lemma loop_exhausted (k m : nat) :
  k + m = n →
  (∀ i, k ≤ i < n → ∃ e, reply (rep i) = inr e) →
  result (loop (seq k m)) = inl None
  ∧ elapsed (loop (seq k m)) = sum_list_with (attempt_time rep) (seq k m)
  ∧ calls (loop (seq k m)) = replicate m c.
Proof.
  revert k; induction m as [|m IH]; intros k Hn Hfail.
  - simpl. by rewrite loop_nil.
  - cbn [seq]. pose proof (loop_step k (seq (S k) m)) as Hstep.
    destruct (Hfail k) as (e & He); [lia|]. rewrite He in Hstep.
    destruct (Nat.ltb_spec k (n - 1)).
    + destruct Hstep as (-> & -> & ->).
      destruct (IH (S k)) as (-> & -> & ->); [lia|intros; apply Hfail; lia|].
      by split_and!.
    + destruct Hstep as (-> & -> & ->).
      assert (m = 0) as -> by lia. simpl. split_and!; [done| |done].
      unfold attempt_time. lia.
Qed.

(** The attempts before [j] raise and attempt [j] is answered: the loop
    returns what it parses out of that answer and stops. *)
Lemma loop_first_reply (k m j : nat) (data : P) :
  k + m = n → k ≤ j < n →
  (∀ i, k ≤ i < j → ∃ e, reply (rep i) = inr e) →
  reply (rep j) = inl data →
  result (loop (seq k m)) = inl (parse data)
  ∧ elapsed (loop (seq k m)) = sum_list_with (attempt_time rep) (seq k (S j - k))
  ∧ calls (loop (seq k m)) = replicate (S j - k) c.
Proof.
  revert k; induction m as [|m IH]; intros k Hn Hj Hfail Hdata; [lia|].
  cbn [seq]. pose proof (loop_step k (seq (S k) m)) as Hstep.
  destruct (decide (k = j)) as [->|Hne].
  - rewrite Hdata in Hstep. destruct Hstep as (-> & -> & ->).
    replace (S j - j) with 1 by lia. simpl. split_and!; [done| |done].
    unfold attempt_time. lia.
  - destruct (Hfail k) as (e & He); [lia|]. rewrite He in Hstep.
    destruct (Nat.ltb_spec k (n - 1)); [|lia].
    destruct Hstep as (-> & -> & ->).
    destruct (IH (S k)) as (-> & -> & ->);
      [lia|lia|intros; apply Hfail; lia|done|].
    replace (S j - k) with (S (S j - S k)) by lia.
    by split_and!.
Qed.

End Loop.

(** The pauses before the first [n] attempts add up to [2^(n-1) - 1]. *)
Lemma total_backoff (n : nat) :
  sum_list_with backoff (seq 0 n) = 2 ^ (n - 1) - 1.
Proof.
  induction n as [|n IH]; [done|].
  rewrite seq_S, sum_list_with_app, IH. simpl.
  destruct n as [|n]; [done|].
  unfold backoff. simpl. rewrite Nat.sub_0_r.
  pose proof (Nat.pow_nonzero 2 n). lia.
Qed.

Lemma attempt_time_sum {P} (rep : nat → sdk_reply P) (l : list nat) :
  sum_list_with (attempt_time rep) l
  = sum_list_with backoff l + sum_list_with (λ i, latency (rep i)) l.
Proof.
  induction l as [|i l IH]; simpl; [done|]. unfold attempt_time at 1. lia.
Qed.

(** ** Whitespace and punctuation *)

Lemma lstrip_blank (s : string) : blank s = true → Py.lstrip s = "".
Proof.
  induction s as [|c s IH]; [done|]. simpl.
  destruct (Py.isspace c); [apply IH|done].
Qed.

Lemma lstrip_not_blank (s : string) :
  blank s = false → ∃ c t, Py.lstrip s = String c t ∧ Py.isspace c = false.
Proof.
  induction s as [|c s IH]; [done|]. simpl.
  destruct (Py.isspace c) eqn:Hc; [apply IH|]. intros _. by exists c, s.
Qed.

Lemma rev_app_blank (s1 s2 : string) :
  blank (String.rev_app s1 s2) = blank s1 && blank s2.
Proof.
  revert s2; induction s1 as [|c s1 IH]; intros s2; [done|].
  simpl. rewrite IH. simpl. by destruct (Py.isspace c), (blank s1), (blank s2).
Qed.

Lemma rev_blank (s : string) : blank (String.rev s) = blank s.
Proof. unfold String.rev. rewrite rev_app_blank. simpl. apply andb_true_r. Qed.

(** [strip] leaves nothing exactly of the texts made of whitespace. *)
Lemma strip_truthy (s : string) : Py.truthy (Py.strip s) = negb (blank s).
Proof.
  unfold Py.strip, Py.rstrip.
  destruct (blank s) eqn:Hs.
  - by rewrite (lstrip_blank s).
  - destruct (lstrip_not_blank s Hs) as (c & t & Hl & Hc). rewrite Hl.
    assert (blank (String.rev (String c t)) = false) as Hr.
    { rewrite rev_blank. simpl. by rewrite Hc. }
    destruct (lstrip_not_blank _ Hr) as (c' & t' & -> & Hc').
    assert (blank (String.rev (String c' t')) = false) as Hr'.
    { rewrite rev_blank. simpl. by rewrite Hc'. }
    by destruct (String.rev (String c' t')).
Qed.

Lemma length_append (s t : string) :
  String.length (s +:+ t) = String.length s + String.length t.
Proof.
  induction s as [|c s IH]; [done|]. rewrite append_cons. simpl. by rewrite IH.
Qed.

Lemma substring_last (s : string) (c : ascii) :
  String.substring (String.length s) 1 (s +:+ String c "") = String c "".
Proof.
  induction s as [|c' s IH]; [done|]. rewrite append_cons. simpl. apply IH.
Qed.

Lemma endswith_append (s : string) (c : ascii) :
  Py.endswith (s +:+ String c "") (String c "") = true.
Proof.
  unfold Py.endswith. rewrite length_append.
  change (String.length (String c "")) with 1.
  destruct (Nat.leb_spec 1 (String.length s + 1)); [|lia].
  replace (String.length s + 1 - 1) with (String.length s) by lia.
  rewrite substring_last. apply String.eqb_refl.
Qed.

Lemma sentiment_text_ends_sentence (text : string) :
  ends_sentence (sentiment_text text) = true.
Proof.
  unfold sentiment_text. fold (ends_sentence (Py.strip text)).
  destruct (ends_sentence (Py.strip text)) eqn:Hend; simpl; [done|].
  unfold ends_sentence. by rewrite endswith_append.
Qed.

(** ** [analyze_sentiment] and [analyze_entities] *)

Section Analysis.

Context (cfg : Config).
Implicit Types (text : string) (n : nat).

Lemma analyze_sentiment_loop text n :
  token_missing cfg = false → blank text = false →
  analyze_sentiment cfg text n
  = sentiment_attempts cfg (sentiment_text text) n (seq 0 n).
Proof.
  intros Htok Hblank. unfold analyze_sentiment.
  by rewrite Htok, strip_truthy, Hblank.
Qed.

Lemma analyze_entities_loop text n :
  token_missing cfg = false → blank text = false →
  analyze_entities cfg text n
  = entities_attempts cfg (Py.strip text) n (seq 0 n).
Proof.
  intros Htok Hblank. unfold analyze_entities.
  by rewrite Htok, strip_truthy, Hblank.
Qed.

Lemma analyze_sentiment_idle text n :
  token_missing cfg = true ∨ blank text = true →
  analyze_sentiment cfg text n = Task.ret None.
Proof.
  unfold analyze_sentiment. intros [->|Hblank]; [done|].
  rewrite strip_truthy, Hblank. simpl. by destruct (token_missing cfg).
Qed.

Lemma analyze_entities_idle text n :
  token_missing cfg = true ∨ blank text = true →
  analyze_entities cfg text n = Task.ret None.
Proof.
  unfold analyze_entities. intros [->|Hblank]; [done|].
  rewrite strip_truthy, Hblank. simpl. by destruct (token_missing cfg).
Qed.

Lemma analyze_sentiment_returns text n :
  ∃ r, result (analyze_sentiment cfg text n) = inl r.
Proof.
  destruct (token_missing cfg) eqn:Htok, (blank text) eqn:Hblank;
    try (rewrite analyze_sentiment_idle by auto; by eexists).
  rewrite analyze_sentiment_loop by done.
  apply (loop_returns (sentiment_attempts cfg (sentiment_text text) n) n
           (sdk_get_sentiments (client cfg) (sentiment_text text))
           parse_sentiments (SdkGetSentiments (sentiment_text text))
           eq_refl (sentiment_attempts_step cfg (sentiment_text text) n)).
Qed.

Lemma analyze_sentiment_calls text n :
  ∃ k, k ≤ n
       ∧ calls (analyze_sentiment cfg text n)
         = replicate k (SdkGetSentiments (sentiment_text text)).
Proof.
  destruct (token_missing cfg) eqn:Htok, (blank text) eqn:Hblank;
    try (rewrite analyze_sentiment_idle by auto; exists 0; split; [lia|done]).
  rewrite analyze_sentiment_loop by done.
  destruct (loop_calls (sentiment_attempts cfg (sentiment_text text) n) n
              (sdk_get_sentiments (client cfg) (sentiment_text text))
              parse_sentiments (SdkGetSentiments (sentiment_text text))
              eq_refl (sentiment_attempts_step cfg (sentiment_text text) n)
              (seq 0 n))
    as (k & Hk & Hcalls).
  exists k. rewrite length_seq in Hk. split; [done|apply Hcalls].
Qed.

Lemma analyze_entities_returns text n :
  ∃ r, result (analyze_entities cfg text n) = inl r.
Proof.
  destruct (token_missing cfg) eqn:Htok, (blank text) eqn:Hblank;
    try (rewrite analyze_entities_idle by auto; by eexists).
  rewrite analyze_entities_loop by done.
  apply (loop_returns (entities_attempts cfg (Py.strip text) n) n
           (sdk_get_entities (client cfg) (Py.strip text))
           (λ data, Some (parse_entities data))
           (SdkGetEntities (Py.strip text))
           eq_refl (entities_attempts_step cfg (Py.strip text) n)).
Qed.

Lemma analyze_entities_calls text n :
  ∃ k, k ≤ n
       ∧ calls (analyze_entities cfg text n)
         = replicate k (SdkGetEntities (Py.strip text)).
Proof.
  destruct (token_missing cfg) eqn:Htok, (blank text) eqn:Hblank;
    try (rewrite analyze_entities_idle by auto; exists 0; split; [lia|done]).
  rewrite analyze_entities_loop by done.
  destruct (loop_calls (entities_attempts cfg (Py.strip text) n) n
              (sdk_get_entities (client cfg) (Py.strip text))
              (λ data, Some (parse_entities data))
              (SdkGetEntities (Py.strip text))
              eq_refl (entities_attempts_step cfg (Py.strip text) n)
              (seq 0 n))
    as (k & Hk & Hcalls).
  exists k. rewrite length_seq in Hk. split; [done|apply Hcalls].
Qed.

End Analysis.

(** X1: [analyze_sentiment] and [analyze_entities] make at most
    [max_retries] calls, all with the same text, and return a result
    whatever the calls do.  The text of the sentiment calls ends with one
    of [.], [!], [?].  For an ASCII text, the sentiment calls carry the
    stripped text, closed by a period unless it ends with one of the
    three marks, and the entity calls carry the stripped text. *)
Theorem analysis_retries_bounded (cfg : Config) (text : string) (n : nat) :
  (∃ r, result (analyze_sentiment cfg text n) = inl r)
  ∧ (∃ k t, k ≤ n
            ∧ calls (analyze_sentiment cfg text n) = replicate k (SdkGetSentiments t)
            ∧ ends_sentence t = true
            ∧ (ascii_only text = true → t = sentiment_text text))
  ∧ (∃ r, result (analyze_entities cfg text n) = inl r)
  ∧ (∃ k t, k ≤ n
            ∧ calls (analyze_entities cfg text n) = replicate k (SdkGetEntities t)
            ∧ (ascii_only text = true → t = Py.strip text)).
Proof.
  split_and!.
  - apply analyze_sentiment_returns.
  - destruct (analyze_sentiment_calls cfg text n) as (k & Hk & Hcalls).
    exists k, (sentiment_text text).
    split_and!; [done|done|apply sentiment_text_ends_sentence|done].
  - apply analyze_entities_returns.
  - destruct (analyze_entities_calls cfg text n) as (k & Hk & Hcalls).
    by exists k, (Py.strip text).
Qed.

(** X2: with a credential and an ASCII text that is not blank, when every
    one of the [max_retries] attempts raises, the analysis returns [None] after
    exactly [max_retries] calls; the pauses between them add up to
    [2^(max_retries-1) - 1] time units. *)
Theorem analysis_gives_up (cfg : Config) (text : string) (n : nat) :
  token_missing cfg = false →
  ascii_only text = true →
  blank text = false →
  ((∀ i, i < n →
         ∃ e, reply (sdk_get_sentiments (client cfg) (sentiment_text text) i)
              = inr e) →
   result (analyze_sentiment cfg text n) = inl None
   ∧ calls (analyze_sentiment cfg text n)
     = replicate n (SdkGetSentiments (sentiment_text text))
   ∧ elapsed (analyze_sentiment cfg text n)
     = 2 ^ (n - 1) - 1
       + sum_list_with
           (λ i, latency (sdk_get_sentiments (client cfg) (sentiment_text text) i))
           (seq 0 n))
  ∧ ((∀ i, i < n →
           ∃ e, reply (sdk_get_entities (client cfg) (Py.strip text) i) = inr e) →
     result (analyze_entities cfg text n) = inl None
     ∧ calls (analyze_entities cfg text n)
       = replicate n (SdkGetEntities (Py.strip text))
     ∧ elapsed (analyze_entities cfg text n)
       = 2 ^ (n - 1) - 1
         + sum_list_with
             (λ i, latency (sdk_get_entities (client cfg) (Py.strip text) i))
             (seq 0 n)).
Proof.
  intros Htok _ Hblank.
  rewrite analyze_sentiment_loop, analyze_entities_loop by done.
  split; intros Hfail.
  - destruct (loop_exhausted (sentiment_attempts cfg (sentiment_text text) n) n
                (sdk_get_sentiments (client cfg) (sentiment_text text))
                parse_sentiments (SdkGetSentiments (sentiment_text text))
                eq_refl (sentiment_attempts_step cfg (sentiment_text text) n)
                0 n)
      as (Hr & He & Hc); [done|intros i Hi; apply Hfail; lia|].
    rewrite Hr, He, Hc, attempt_time_sum, total_backoff. by split_and!.
  - destruct (loop_exhausted (entities_attempts cfg (Py.strip text) n) n
                (sdk_get_entities (client cfg) (Py.strip text))
                (λ data, Some (parse_entities data))
                (SdkGetEntities (Py.strip text))
                eq_refl (entities_attempts_step cfg (Py.strip text) n)
                0 n)
      as (Hr & He & Hc); [done|intros i Hi; apply Hfail; lia|].
    rewrite Hr, He, Hc, attempt_time_sum, total_backoff. by split_and!.
Qed.

Lemma analysis_gives_up_witness :
  analyze_entities (Samples.config Cases.flaky Samples.zeros) " maize " 3
  = mkTask (inl None) 6
      [(0, SdkGetEntities "maize"); (2, SdkGetEntities "maize");
       (5, SdkGetEntities "maize")]
  ∧ result (analyze_entities (Samples.config Cases.flaky Samples.zeros) " maize " 3)
    = inl None
  ∧ elapsed (analyze_entities (Samples.config Cases.flaky Samples.zeros) " maize " 3)
    = 2 ^ (3 - 1) - 1 + 3.
Proof.
  split; [by vm_compute|].
  destruct (proj2 (analysis_gives_up (Samples.config Cases.flaky Samples.zeros)
                     " maize " 3 eq_refl eq_refl eq_refl))
    as (Hr & _ & He).
  { intros i _. by eexists. }
  by split.
Defined.

(** X3: with a credential and an ASCII text that is not blank, when the
    attempts before attempt [j] raise and attempt [j] is answered, the
    analysis returns what it reads in that answer after exactly [j + 1]
    calls and pauses of [2^j - 1] time units in all; a sentiment answer
    without sentiments gives [None] at once, an entity answer without
    entities gives a result with no entity. *)
Theorem analysis_stops_at_first_reply (cfg : Config) (text : string) (n j : nat) :
  token_missing cfg = false →
  ascii_only text = true →
  blank text = false →
  j < n →
  (∀ data,
     (∀ i, i < j →
           ∃ e, reply (sdk_get_sentiments (client cfg) (sentiment_text text) i)
                = inr e) →
     reply (sdk_get_sentiments (client cfg) (sentiment_text text) j) = inl data →
     result (analyze_sentiment cfg text n) = inl (parse_sentiments data)
     ∧ calls (analyze_sentiment cfg text n)
       = replicate (S j) (SdkGetSentiments (sentiment_text text))
     ∧ elapsed (analyze_sentiment cfg text n)
       = 2 ^ j - 1
         + sum_list_with
             (λ i, latency (sdk_get_sentiments (client cfg) (sentiment_text text) i))
             (seq 0 (S j)))
  ∧ (∀ data,
       (∀ i, i < j →
             ∃ e, reply (sdk_get_entities (client cfg) (Py.strip text) i) = inr e) →
       reply (sdk_get_entities (client cfg) (Py.strip text) j) = inl data →
       result (analyze_entities cfg text n) = inl (Some (parse_entities data))
       ∧ calls (analyze_entities cfg text n)
         = replicate (S j) (SdkGetEntities (Py.strip text))
       ∧ elapsed (analyze_entities cfg text n)
         = 2 ^ j - 1
           + sum_list_with
               (λ i, latency (sdk_get_entities (client cfg) (Py.strip text) i))
               (seq 0 (S j)))
  ∧ parse_sentiments {| data_Sentiments := None; data_sentiments := None |} = None
  ∧ entities (parse_entities {| data_Entities := None; data_entities := None |})
    = Some [].
Proof.
  intros Htok _ Hblank Hj.
  rewrite analyze_sentiment_loop, analyze_entities_loop by done.
  split_and!; [| |done|done]; intros data Hfail Hdata.
  - destruct (loop_first_reply (sentiment_attempts cfg (sentiment_text text) n) n
                (sdk_get_sentiments (client cfg) (sentiment_text text))
                parse_sentiments (SdkGetSentiments (sentiment_text text))
                (sentiment_attempts_step cfg (sentiment_text text) n)
                0 n j data)
      as (Hr & He & Hc); [done|lia|intros i Hi; apply Hfail; lia|done|].
    rewrite Hr, He, Hc, Nat.sub_0_r, attempt_time_sum, total_backoff.
    replace (S j - 1) with j by lia. by split_and!.
  - destruct (loop_first_reply (entities_attempts cfg (Py.strip text) n) n
                (sdk_get_entities (client cfg) (Py.strip text))
                (λ data, Some (parse_entities data))
                (SdkGetEntities (Py.strip text))
                (entities_attempts_step cfg (Py.strip text) n)
                0 n j data)
      as (Hr & He & Hc); [done|lia|intros i Hi; apply Hfail; lia|done|].
    rewrite Hr, He, Hc, Nat.sub_0_r, attempt_time_sum, total_backoff.
    replace (S j - 1) with j by lia. by split_and!.
Qed.

Lemma analysis_stops_at_first_reply_witness :
  result (analyze_sentiment (Samples.config Cases.flaky Samples.zeros) "good" 3)
  = inl (parse_sentiments Samples.positive_payload)
  ∧ calls (analyze_sentiment (Samples.config Cases.flaky Samples.zeros) "good" 3)
    = replicate 3 (SdkGetSentiments "good.")
  ∧ elapsed (analyze_sentiment (Samples.config Cases.flaky Samples.zeros) "good" 3)
    = 2 ^ 2 - 1 + 3.
Proof.
  refine (proj1 (analysis_stops_at_first_reply
                   (Samples.config Cases.flaky Samples.zeros) "good" 3 2
                   eq_refl eq_refl eq_refl _)
            Samples.positive_payload _ eq_refl); [lia|].
  intros i Hi. destruct i as [|[|i]]; [by eexists|by eexists|lia].
Defined.

(** X4: without a credential, or for a text made of whitespace only,
    both analyses return [None] at once and call nothing. *)
Theorem blank_text_is_not_analysed (cfg : Config) (text : string) (n : nat) :
  token_missing cfg = true ∨ blank text = true →
  analyze_sentiment cfg text n = mkTask (inl None) 0 []
  ∧ analyze_entities cfg text n = mkTask (inl None) 0 [].
Proof.
  intros H. by rewrite analyze_sentiment_idle, analyze_entities_idle.
Qed.

Lemma blank_text_is_not_analysed_witness :
  analyze_sentiment (Samples.config Samples.prompt Samples.zeros) "   " 3
  = mkTask (inl None) 0 []
  ∧ analyze_entities (Samples.config Samples.prompt Samples.zeros) "   " 3
    = mkTask (inl None) 0 [].
Proof.
  apply (blank_text_is_not_analysed
           (Samples.config Samples.prompt Samples.zeros) "   " 3).
  by right.
Defined.

(** ** Parsing the payloads *)

Lemma collect_labels_length (l : list sentence_dict) (acc : list string) :
  length (fold_left collect_label_step l acc) ≤ length acc + length l.
Proof.
  revert acc; induction l as [|sent l IH]; intros acc; simpl; [lia|].
  etrans; [apply IH|].
  unfold collect_label_step.
  destruct (sent_labels sent) as [[|? ?]|], (sent_sentiment sent) as [[|? ?]|];
    rewrite ?length_app; simpl; lia.
Qed.

Lemma count_three (l : list string) :
  Py.count l "positive" + Py.count l "negative" + Py.count l "neutral" ≤ length l.
Proof.
  unfold Py.count. induction l as [|x l IH]; [done|].
  rewrite !filter_cons. simpl.
  repeat case_decide; simplify_eq; simpl; lia.
Qed.

(** X5: a sentiment result is parsed out of a non-empty list of
    sentences, the one under ["Sentiments"] first; its three counts add
    up to at most the number of sentences, it keeps the payload, and its
    overall label is one of the three. *)
Theorem parse_sentiments_counts (data : sentiments_payload) (r : sentiment_dict) :
  parse_sentiments data = Some r →
  (∃ s l,
     (data_Sentiments data = Some (s :: l)
      ∨ (data_sentiments data = Some (s :: l)
         ∧ (data_Sentiments data = None ∨ data_Sentiments data = Some [])))
     ∧ positive_count r + negative_count r + neutral_count r ≤ length (s :: l))
  ∧ sentiment_full_data r = data
  ∧ (overall_sentiment r = Some "positive"
     ∨ overall_sentiment r = Some "negative"
     ∨ overall_sentiment r = Some "neutral").
Proof.
  unfold parse_sentiments. intros Hr.
  assert (∀ sentences,
            positive_count (sentiment_of_labels (fold_left collect_label_step sentences []) data)
            + negative_count (sentiment_of_labels (fold_left collect_label_step sentences []) data)
            + neutral_count (sentiment_of_labels (fold_left collect_label_step sentences []) data)
            ≤ length sentences) as Hcount.
  { intros sentences. simpl. etrans; [apply count_three|].
    etrans; [apply collect_labels_length|]. simpl. lia. }
  assert (∀ labels,
            let o := overall_sentiment (sentiment_of_labels labels data) in
            o = Some "positive" ∨ o = Some "negative" ∨ o = Some "neutral")
    as Hlabel.
  { intros labels. simpl. unfold vote.
    destruct (_ && _); [by left|]. destruct (_ && _); [right; by left|].
    right; by right. }
  destruct (data_Sentiments data) as [[|s l]|] eqn:Hupper.
  - destruct (data_sentiments data) as [[|s l]|] eqn:Hlower; try done.
    injection Hr as <-. split_and!; [|done|apply Hlabel].
    exists s, l. split; [right; split; [done|by right]|apply (Hcount (s :: l))].
  - injection Hr as <-. split_and!; [|done|apply Hlabel].
    exists s, l. split; [by left|apply (Hcount (s :: l))].
  - destruct (data_sentiments data) as [[|s l]|] eqn:Hlower; try done.
    injection Hr as <-. split_and!; [|done|apply Hlabel].
    exists s, l. split; [right; split; [done|by left]|apply (Hcount (s :: l))].
Qed.

Lemma parse_sentiments_counts_witness :
  sentiment_full_data (sentiment_of_labels ["positive"] Samples.positive_payload)
  = Samples.positive_payload.
Proof.
  exact (proj1 (proj2 (parse_sentiments_counts Samples.positive_payload
                         (sentiment_of_labels ["positive"] Samples.positive_payload)
                         eq_refl))).
Defined.

(** X6: an entity result always holds a list of entities, keeps the
    payload and counts the entities it holds; the list is the one under
    ["Entities"] when that is a list, else the one under ["entities"]
    when that is a list, else the empty list. *)
Theorem parse_entities_counts (data : entities_payload) :
  ∃ l,
    entities (parse_entities data) = Some l
    ∧ entity_count (parse_entities data) = length l
    ∧ entities_full_data (parse_entities data) = data
    ∧ l = match data_Entities data, data_entities data with
          | Some (EntityList upper), _ => upper
          | _, Some (EntityList lower) => lower
          | _, _ => []
          end.
Proof.
  unfold parse_entities.
  destruct (data_Entities data) as [[upper|]|];
    [|destruct (data_entities data) as [[lower|]|]..].
  all: try (by exists []).
  - destruct upper; by eexists.
  - destruct lower; by eexists.
  - destruct lower; by eexists.
Qed.

(** ** More on the translation gateway *)

(** X7: with a credential, [translate_text] returns either the text it
    was given or the first translation of the payload, and never an
    empty text for a text that is not empty; it calls the provider once
    when the two codes differ and not at all when they are equal, and
    lasts as long as that call. *)
Theorem translate_text_outcome (cfg : Config)
    (text source_lang target_lang : string) :
  token_missing cfg = false →
  (∃ t, result (translate_text cfg text source_lang target_lang) = inl t
        ∧ (text ≠ "" → t ≠ "")
        ∧ (t = text
           ∨ provider_translation cfg text source_lang target_lang = Some t))
  ∧ calls (translate_text cfg text source_lang target_lang)
    = (if decide (source_lang = target_lang) then []
       else [SdkTranslate text source_lang target_lang])
  ∧ elapsed (translate_text cfg text source_lang target_lang)
    = (if decide (source_lang = target_lang) then 0
       else latency (sdk_translate (client cfg) text source_lang target_lang)).
Proof.
  intros Htok. destruct (decide (source_lang = target_lang)) as [->|Hne].
  - rewrite translate_text_same by done. split_and!; [|done|done].
    exists text. by split_and!; [| |left].
  - rewrite translate_text_remote by done. split_and!; [|done|done].
    destruct (provider_translation cfg text source_lang target_lang)
      as [t|] eqn:Ht; simpl.
    + exists t. split_and!; [done| |by right].
      intros _. unfold provider_translation in Ht.
      repeat case_match; by simplify_eq.
    + exists text. by split_and!; [| |left].
Qed.

Lemma translate_text_outcome_witness :
  calls (translate_text (Samples.config Samples.prompt Samples.zeros)
           "Harvest" "eng_Latn" "zul_Latn")
  = [SdkTranslate "Harvest" "eng_Latn" "zul_Latn"].
Proof.
  exact (proj1 (proj2 (translate_text_outcome
                         (Samples.config Samples.prompt Samples.zeros)
                         "Harvest" "eng_Latn" "zul_Latn" eq_refl))).
Defined.

(** X8: [translate_text_by_language_name] treats a language name that
    is not registered as English, and with a credential it returns the
    text unchanged, without a call, for any two names that stand for the
    same code (as ["English"], ["Portuguese"] and ["Nigerian Pidgin"]
    do). *)
Theorem translate_by_name_same_code (cfg : Config)
    (text source_language target_language : string) :
  (LANGUAGE_MAP !! source_language = None →
   translate_text_by_language_name cfg text source_language target_language
   = translate_text_by_language_name cfg text "English" target_language)
  ∧ (LANGUAGE_MAP !! target_language = None →
     translate_text_by_language_name cfg text source_language target_language
     = translate_text_by_language_name cfg text source_language "English")
  ∧ (token_missing cfg = false →
     get_language_code source_language = get_language_code target_language →
     translate_text_by_language_name cfg text source_language target_language
     = mkTask (inl text) 0 [])
  ∧ (token_missing cfg = false →
     translate_text_by_language_name cfg text "Portuguese" "English"
     = mkTask (inl text) 0 []
     ∧ translate_text_by_language_name cfg text "English" "Nigerian Pidgin"
       = mkTask (inl text) 0 []).
Proof.
  unfold translate_text_by_language_name. split_and!.
  - intros Hs. unfold get_language_code at 1. by rewrite Hs.
  - intros Ht. unfold get_language_code at 2. by rewrite Ht.
  - intros Htok ->. by apply translate_text_same.
  - intros Htok. split; by apply translate_text_same.
Qed.

(** ** More on transcription *)

Section Transcription.

Context (cfg : Config).


End Transcription.


(** ** The steps: the calls they make *)

Section Budget.

Context (cfg : Config).
Implicit Types (text language : string).

Lemma replicate_sub_one {X} (k : nat) (x : X) : k ≤ 1 → replicate k x `sublist_of` [x].
Proof.
  intros Hk. destruct k as [|[|k]]; [apply sublist_nil_l|done|lia].
Qed.

Lemma translate_text_calls_sub text source_lang target_lang :
  calls (translate_text cfg text source_lang target_lang)
  `sublist_of` [SdkTranslate text source_lang target_lang].
Proof.
  destruct (token_missing cfg) eqn:Htok.
  { rewrite translate_text_no_token by done. apply sublist_nil_l. }
  destruct (decide (source_lang = target_lang)) as [->|Hne].
  - rewrite translate_text_same by done. apply sublist_nil_l.
  - by rewrite translate_text_remote.
Qed.

(** A coroutine under [wait_for(..., 3)] inside a [try] whose handler
    falls back to a value: the handler adds no call. *)
Lemma guarded {A} (m : Task A) (h : exn → option (Task A)) (fallback : A) :
  (∀ e, h e = Some (mret fallback)) →
  calls (Task.try_except (Task.wait_for m 3) h) `sublist_of` calls m.
Proof.
  intros Hh. rewrite try_except_calls.
  pose proof (wait_for_calls m 3).
  destruct (result (Task.wait_for m 3)) as [a|e].
  - by rewrite app_nil_r.
  - rewrite Hh. unfold calls at 2. simpl. by rewrite app_nil_r.
Qed.

Lemma run_sentiment_calls text :
  calls (run_sentiment cfg text) `sublist_of` [SdkGetSentiments (sentiment_text text)].
Proof.
  unfold run_sentiment. rewrite try_except_calls.
  destruct (analyze_sentiment_calls cfg text 1) as (k & Hk & ->).
  destruct (result _); rewrite app_nil_r; by apply replicate_sub_one.
Qed.

Lemma run_entities_calls text :
  calls (run_entities cfg text) `sublist_of` [SdkGetEntities (Py.strip text)].
Proof.
  unfold run_entities. rewrite try_except_calls.
  destruct (analyze_entities_calls cfg text 1) as (k & Hk & ->).
  destruct (result _); rewrite app_nil_r; by apply replicate_sub_one.
Qed.

Lemma analyze_step_calls text :
  calls (analyze_step cfg text)
  `sublist_of` [SdkGetSentiments (sentiment_text text); SdkGetEntities (Py.strip text)].
Proof.
  unfold analyze_step.
  set (g := Task.gather (run_sentiment cfg text) (run_entities cfg text)).
  rewrite try_except_calls, bind_calls.
  pose proof (wait_for_calls g 3) as Hcalls.
  assert (calls g `sublist_of`
            [SdkGetSentiments (sentiment_text text); SdkGetEntities (Py.strip text)])
    as Hg.
  { unfold g. rewrite gather_calls.
    apply (sublist_app _ [_] _ [_]);
      [apply run_sentiment_calls|apply run_entities_calls]. }
  unfold mbind, Task_bind, Task.bind.
  destruct (result (Task.wait_for g 3)) as [p|e]; simpl.
  - rewrite !app_nil_r. by etrans.
  - rewrite app_nil_r.
    destruct e; simpl; rewrite ?app_nil_r; by etrans.
Qed.

Lemma translate_back_step_calls language text code :
  calls (translate_back_step cfg language text code)
  `sublist_of` [SdkTranslate text "eng_Latn" code].
Proof.
  unfold translate_back_step. destruct (negb _).
  - etrans; [|apply translate_text_calls_sub].
    apply (guarded (translate_text cfg text "eng_Latn" code)
             (λ e, match e with
                   | TimeoutError => Some (mret text)
                   | _ => Some (mret text)
                   end) text).
    by intros [].
  - apply sublist_nil_l.
Qed.

(** The calls of the steps of [analyze_text]. *)
Lemma analyze_text_steps_calls (request : TextAnalysisRequest) (l : locals) :
  result (analyze_text_steps cfg request) = inl l →
  calls (analyze_text_steps cfg request)
  `sublist_of`
    [ SdkTranslate (req_content request)
        (get_language_code (req_language request)) "eng_Latn";
      SdkGetSentiments (sentiment_text (english_text l));
      SdkGetEntities (Py.strip (english_text l));
      SdkTranslate (analysis_text l) "eng_Latn"
        (get_language_code (req_language request)) ].
Proof.
  unfold analyze_text_steps.
  set (step1 := if negb _ then _ else _).
  intros (et & Het & (a & Ha & (rt & Hrt & Hl)%bind_inl)%bind_inl)%bind_inl.
  injection Hl as <-. simpl.
  assert (calls step1
          `sublist_of` [SdkTranslate (req_content request)
                          (get_language_code (req_language request)) "eng_Latn"])
    as Hc1.
  { unfold step1. destruct (negb _).
    - etrans; [|apply translate_text_calls_sub].
      apply (guarded (translate_text cfg (req_content request)
                        (get_language_code (req_language request)) "eng_Latn")
               (λ e, match e with
                     | TimeoutError => Some (mret (req_content request))
                     | _ => Some (mret (req_content request))
                     end) (req_content request)).
      by intros [].
    - apply sublist_nil_l. }
  pose proof (analyze_step_calls et) as Hc2.
  pose proof (translate_back_step_calls (req_language request) (format_step a)
                (get_language_code (req_language request))) as Hc3.
  rewrite bind_calls, Het. cbv beta iota.
  rewrite bind_calls, Ha. cbv beta iota.
  rewrite bind_calls, Hrt. cbv beta iota.
  change (calls (mret _)) with (@nil sdk_call).
  rewrite app_nil_r.
  apply (sublist_app _ [_] _ [_; _; _]); [done|].
  by apply (sublist_app _ [_; _] _ [_]).
Qed.

(** The calls of the steps of [analyze_audio]. *)
Lemma analyze_audio_steps_calls language text (l : locals) :
  result (analyze_audio_steps cfg language text) = inl l →
  calls (analyze_audio_steps cfg language text)
  `sublist_of`
    [ SdkGetSentiments (sentiment_text text);
      SdkGetEntities (Py.strip text);
      SdkTranslate (analysis_text l) "eng_Latn" (get_language_code language) ].
Proof.
  unfold analyze_audio_steps.
  intros (a & Ha & (rt & Hrt & Hl)%bind_inl)%bind_inl.
  injection Hl as <-. simpl.
  pose proof (analyze_step_calls text) as Hc2.
  pose proof (translate_back_step_calls language (format_step a)
                (get_language_code language)) as Hc3.
  rewrite bind_calls, Ha. cbv beta iota.
  rewrite bind_calls, Hrt. cbv beta iota.
  change (calls (mret _)) with (@nil sdk_call).
  rewrite app_nil_r.
  by apply (sublist_app _ [_; _] _ [_]).
Qed.

End Budget.

(** ** More on the handlers *)

Lemma sublist_no_transcribe (l k : list sdk_call) :
  l `sublist_of` k → Forall (λ c, is_transcribe c = false) k →
  Forall (λ c, is_transcribe c = false) l.
Proof.
  induction 1 as [|c l k _ IH|c l k _ IH]; intros Hk; [done|..].
  - apply Forall_cons in Hk as (Hc & Hk). constructor; auto.
  - apply Forall_cons in Hk as (_ & Hk). auto.
Qed.

(** X10: the steps of [analyze_text] call the provider at most four
    times, in this order: the translation of the content to English, the
    sentiment call, the entity call, the translation of the analysis
    text back to the language of the request; they never transcribe.
    For an ASCII English text the two analysis calls carry the texts of
    X1.  When the handler answers a response it has drawn eight bytes of
    entropy and made exactly these calls.  A isiZulu request served by a
    provider that answers at once makes all four calls. *)
Theorem text_pipeline_budget (cfg : Config) (request : TextAnalysisRequest) :
  (∀ l,
     result (analyze_text_steps cfg request) = inl l →
     ∃ t1 t2,
       calls (analyze_text_steps cfg request)
       `sublist_of`
         [ SdkTranslate (req_content request)
             (get_language_code (req_language request)) "eng_Latn";
           SdkGetSentiments t1;
           SdkGetEntities t2;
           SdkTranslate (analysis_text l) "eng_Latn"
             (get_language_code (req_language request)) ]
       ∧ ends_sentence t1 = true
       ∧ (ascii_only (english_text l) = true →
          t1 = sentiment_text (english_text l) ∧ t2 = Py.strip (english_text l)))
  ∧ length (calls (analyze_text_steps cfg request)) ≤ 4
  ∧ Forall (λ c, is_transcribe c = false) (calls (analyze_text_steps cfg request))
  ∧ (∀ s s' resp,
       analyze_text cfg request s = (inl resp, s') →
       s' = mkHState (cursor s + 8)
              (log s ++ calls (analyze_text_steps cfg request)))
  ∧ calls (analyze_text_steps (Samples.config Samples.prompt Samples.zeros)
             Samples.zulu_request)
    = [ SdkTranslate "Ukuvuna kwalo nyaka kuhle kakhulu" "zul_Latn" "eng_Latn";
        SdkGetSentiments "[eng_Latn] Ukuvuna kwalo nyaka kuhle kakhulu.";
        SdkGetEntities "[eng_Latn] Ukuvuna kwalo nyaka kuhle kakhulu";
        SdkTranslate "Sentiment: positive. Entities found: Lagos (location)."
          "eng_Latn" "zul_Latn" ].
Proof.
  destruct (analyze_text_steps_returns cfg request) as (l & Hl).
  pose proof (analyze_text_steps_calls cfg request l Hl) as Hcalls.
  split_and!.
  - intros l' Hl'. rewrite Hl in Hl'. injection Hl' as <-.
    exists (sentiment_text (english_text l)), (Py.strip (english_text l)).
    split_and!; [done|apply sentiment_text_ends_sentence|done].
  - apply sublist_length in Hcalls. simpl in Hcalls. lia.
  - eapply sublist_no_transcribe; [exact Hcalls|]. by repeat constructor.
  - intros s s' resp Hrun.
    by apply analyze_text_response in Hrun as (l' & _ & _ & ->).
  - by vm_compute.
Qed.

(** X11: for an ASCII content, [analyze_text] checks the request in
    this order and rejects it before it calls anything or draws entropy:
    a blank content with status 400 and ["Content cannot be empty"]; a
    language that is not in the translation table with status 400 and
    the list of the supported languages; a missing credential with
    status 503.  A response is given only to a request that passed the
    three checks, and it repeats the language of the request. *)
Theorem analyze_text_outcomes (cfg : Config) (request : TextAnalysisRequest)
    (s : hstate) :
  ascii_only (req_content request) = true →
  (blank (req_content request) = true →
   analyze_text cfg request s
   = (inr (HTTPException 400 "Content cannot be empty"), s))
  ∧ (blank (req_content request) = false →
     contains LANGUAGE_MAP (req_language request) = false →
     analyze_text cfg request s
     = (inr (HTTPException 400
               ("Unsupported language: " +:+ req_language request
                +:+ ". Supported: " +:+ Py.join ", " LANGUAGE_ITEMS.*1)), s))
  ∧ (blank (req_content request) = false →
     contains LANGUAGE_MAP (req_language request) = true →
     token_missing cfg = true →
     analyze_text cfg request s
     = (inr (HTTPException 503 "Lelapa.ai API token not configured"), s))
  ∧ (∀ resp s',
       analyze_text cfg request s = (inl resp, s') →
       blank (req_content request) = false
       ∧ contains LANGUAGE_MAP (req_language request) = true
       ∧ token_missing cfg = false
       ∧ language resp = req_language request).
Proof.
  intros _. split_and!.
  - intros Hblank. unfold analyze_text. by rewrite strip_truthy, Hblank.
  - intros Hblank Hlang. unfold analyze_text.
    by rewrite strip_truthy, Hblank, Hlang.
  - intros Hblank Hlang Htok. unfold analyze_text.
    by rewrite strip_truthy, Hblank, Hlang, Htok.
  - intros resp s' Hrun.
    pose proof Hrun as Hresp.
    apply analyze_text_response in Hresp as (l & _ & -> & _).
    unfold analyze_text in Hrun. rewrite strip_truthy in Hrun.
    destruct (blank (req_content request)); [done|].
    destruct (contains LANGUAGE_MAP (req_language request)); [|done].
    destruct (token_missing cfg); [done|].
    by split_and!.
Qed.

Lemma analyze_text_outcomes_witness :
  analyze_text Samples.unconfigured Cases.blank_request Samples.idle
  = (inr (HTTPException 400 "Content cannot be empty"), Samples.idle)
  ∧ analyze_text Samples.unconfigured Samples.english_request Samples.idle
    = (inr (HTTPException 503 "Lelapa.ai API token not configured"), Samples.idle).
Proof.
  split.
  - apply (proj1 (analyze_text_outcomes Samples.unconfigured Cases.blank_request
                    Samples.idle eq_refl)).
    reflexivity.
  - destruct (analyze_text_outcomes Samples.unconfigured Samples.english_request
                Samples.idle eq_refl) as (_ & _ & Hno_token & _).
    apply Hno_token; reflexivity.
Defined.

Section MoreHandlers.

Context (cfg : Config).

(** The whole run of [analyze_audio] once the two checks are passed. *)
Lemma analyze_audio_run (file : UploadFile) (language : string) (s : hstate) :
  contains STT_LANGUAGE_MAP language = true →
  token_missing cfg = false →
  let s1 := mkHState (cursor s) (log s ++ [SdkTranscribe "eng"]) in
  match reply (sdk_transcribe (client cfg) (file_bytes file) "eng") with
  | inl data =>
      match Py.get (data_transcription_text data) "" with
      | "" =>
          analyze_audio cfg file language s
          = (inr (HTTPException 500 "No transcription text in response"), s1)
      | String c t =>
          ∃ l, result (analyze_audio_steps cfg language (String c t)) = inl l
               ∧ analyze_audio cfg file language s
                 = (inl {| t_id :=
                             Py.get (data_id data)
                               ("trans_"
                                +:+ Py.hex (map (entropy cfg) (seq (cursor s) 8)));
                           t_transcription_text := String c t;
                           t_analysis := response_text l;
                           t_language := language;
                           t_sentiment := sentiment_result l;
                           t_entities := entities_result l |},
                    mkHState (cursor s + 16)
                      (log s ++ SdkTranscribe "eng"
                              :: calls (analyze_audio_steps cfg language (String c t))))
      end
  | inr e =>
      analyze_audio cfg file language s = (inr (transcription_rejection e), s1)
  end.
Proof.
  intros Hlang Htok s1.
  destruct (reply (sdk_transcribe (client cfg) (file_bytes file) "eng"))
    as [data|e] eqn:Hreply;
    [destruct (Py.get (data_transcription_text data) "") as [|c t] eqn:Htext|].
  - unfold analyze_audio. rewrite Hlang, Htok. simpl.
    unfold Handler.try_except at 1, mbind at 1, H_bind at 1, Handler.bind at 1.
    by rewrite transcribe_audio_english, Hreply, Htext by done.
  - destruct (analyze_audio_steps_returns cfg language (String c t)) as (l & Hl).
    exists l. split; [done|].
    unfold analyze_audio. rewrite Hlang, Htok. simpl.
    unfold Handler.try_except at 1, mbind at 1, H_bind at 1, Handler.bind at 1.
    rewrite transcribe_audio_english, Hreply, Htext by done. simpl.
    run_handler. rewrite Hl. simpl.
    unfold calls. f_equal. f_equal; [lia|by rewrite <- app_assoc].
  - unfold analyze_audio. rewrite Hlang, Htok. simpl.
    unfold Handler.try_except at 1, mbind at 1, H_bind at 1, Handler.bind at 1.
    rewrite transcribe_audio_english, Hreply by done.
    by destruct e.
Qed.

(** With the code of English as the code of the language, "Step 4"
    returns the analysis text and calls nothing. *)
Lemma translate_back_step_english_code (language text : string) :
  result (translate_back_step cfg language text "eng_Latn") = inl text
  ∧ calls (translate_back_step cfg language text "eng_Latn") = [].
Proof.
  unfold translate_back_step. destruct (negb _); [|done].
  destruct (token_missing cfg) eqn:Htok.
  - by rewrite translate_text_no_token.
  - by rewrite translate_text_same.
Qed.

(** The steps of [analyze_text] for a language whose code is the code of
    English. *)
Lemma analyze_text_steps_english_code (request : TextAnalysisRequest) (l : locals) :
  get_language_code (req_language request) = "eng_Latn" →
  result (analyze_text_steps cfg request) = inl l →
  english_text l = req_content request
  ∧ response_text l = analysis_text l
  ∧ calls (analyze_text_steps cfg request)
    = calls (analyze_step cfg (req_content request)).
Proof.
  intros Hcode. unfold analyze_text_steps. rewrite Hcode.
  change (negb (String.eqb "eng_Latn" "eng_Latn")) with false. cbv iota.
  intros Hl. pose proof Hl as Hl'.
  apply bind_inl in Hl
    as (et & [= <-] & (a & Ha & (rt & Hrt & Hl)%bind_inl)%bind_inl).
  destruct (translate_back_step_english_code (req_language request) (format_step a))
    as (Hr & Hc).
  rewrite Hr in Hrt. injection Hrt as <-. injection Hl as <-. simpl.
  split_and!; [done|done|].
  rewrite bind_calls. simpl. rewrite bind_calls, Ha. cbv beta iota.
  rewrite bind_calls, Hr, Hc. by rewrite !app_nil_r.
Qed.

Lemma try_except_inl {A} (m : Task A) (h : exn → option (Task A)) (a : A) :
  result m = inl a → Task.try_except m h = m.
Proof. unfold Task.try_except. by intros ->. Qed.

(** One attempt of each analysis, as the handlers make it. *)
Lemma run_sentiment_once (text : string) :
  token_missing cfg = false → blank text = false →
  result (run_sentiment cfg text)
  = inl match reply (sdk_get_sentiments (client cfg) (sentiment_text text) 0) with
        | inl data => parse_sentiments data
        | inr _ => None
        end
  ∧ elapsed (run_sentiment cfg text)
    = latency (sdk_get_sentiments (client cfg) (sentiment_text text) 0).
Proof.
  intros Htok Hblank. unfold run_sentiment.
  rewrite analyze_sentiment_loop by done. change (seq 0 1) with [0].
  pose proof (sentiment_attempts_step cfg (sentiment_text text) 1 0 []) as Hstep.
  cbv zeta in Hstep.
  change (0 <? 1 - 1) with false in Hstep. change (backoff 0) with 0 in Hstep.
  destruct (reply (sdk_get_sentiments (client cfg) (sentiment_text text) 0));
    destruct Hstep as (Hr & He & _);
    (erewrite try_except_inl by exact Hr); by rewrite Hr, He.
Qed.

Lemma run_entities_once (text : string) :
  token_missing cfg = false → blank text = false →
  result (run_entities cfg text)
  = inl match reply (sdk_get_entities (client cfg) (Py.strip text) 0) with
        | inl data => Some (parse_entities data)
        | inr _ => None
        end
  ∧ elapsed (run_entities cfg text)
    = latency (sdk_get_entities (client cfg) (Py.strip text) 0).
Proof.
  intros Htok Hblank. unfold run_entities.
  rewrite analyze_entities_loop by done. change (seq 0 1) with [0].
  pose proof (entities_attempts_step cfg (Py.strip text) 1 0 []) as Hstep.
  cbv zeta in Hstep.
  change (0 <? 1 - 1) with false in Hstep. change (backoff 0) with 0 in Hstep.
  destruct (reply (sdk_get_entities (client cfg) (Py.strip text) 0));
    destruct Hstep as (Hr & He & _);
    (erewrite try_except_inl by exact Hr); by rewrite Hr, He.
Qed.

Lemma append_not_empty (s : string) (c : ascii) (t : string) :
  s +:+ String c t ≠ "".
Proof. by destruct s. Qed.

Lemma format_not_empty (sr : option sentiment_dict) (er : option entities_dict) :
  format_analysis_results sr er ≠ "".
Proof.
  rewrite format_cases.
  destruct (sentiment_part sr), (entities_part er);
    rewrite <- ?append_assoc; first [apply append_not_empty|done].
Qed.

Lemma format_step_not_empty (a : analysis) : format_step a ≠ "".
Proof.
  unfold format_step. destruct (a_timed_out a); [done|apply format_not_empty].
Qed.

Lemma translate_back_step_not_empty (language text code t : string) :
  text ≠ "" →
  result (translate_back_step cfg language text code) = inl t → t ≠ "".
Proof.
  intros Htext Ht.
  destruct (translate_back_step_result cfg language text code)
    as (t' & Ht' & _ & Hor).
  rewrite Ht in Ht'. injection Ht' as <-.
  destruct Hor as [->|(_ & Hp & _)]; [done|].
  unfold provider_translation in Hp. repeat case_match; by simplify_eq.
Qed.

End MoreHandlers.

(** X12: [analyze_audio] rejects a language that is not in the
    transcription table with status 400 and the list of the supported
    languages, then a missing credential with status 503, before it
    calls anything or draws entropy.  When it answers a response, the
    two checks were passed, the response repeats the language asked for
    and holds a transcript that is not empty; the handler has
    transcribed with the code ["eng"], whatever language was asked for,
    and after that it made at most the sentiment call, the entity call
    and one translation from English, in this order, the translation
    being of the replacement sentence or of the formatting of the two
    results of the response; it has drawn sixteen bytes of entropy. *)
Theorem analyze_audio_outcomes (cfg : Config) (file : UploadFile)
    (language : string) (s : hstate) :
  (contains STT_LANGUAGE_MAP language = false →
   analyze_audio cfg file language s
   = (inr (HTTPException 400
             ("Unsupported language: " +:+ language +:+ ". Supported: "
              +:+ Py.join ", " STT_LANGUAGE_ITEMS.*1)), s))
  ∧ (contains STT_LANGUAGE_MAP language = true →
     token_missing cfg = true →
     analyze_audio cfg file language s
     = (inr (HTTPException 503 "Lelapa.ai API token not configured"), s))
  ∧ (∀ resp s',
       analyze_audio cfg file language s = (inl resp, s') →
       contains STT_LANGUAGE_MAP language = true
       ∧ token_missing cfg = false
       ∧ t_language resp = language
       ∧ t_transcription_text resp ≠ ""
       ∧ cursor s' = cursor s + 16
       ∧ ∃ rest analysis_text t1 t2,
           log s' = log s ++ SdkTranscribe "eng" :: rest
           ∧ (analysis_text = REPLACEMENT_SENTENCE
              ∨ analysis_text
                = format_analysis_results (t_sentiment resp) (t_entities resp))
           ∧ rest `sublist_of`
               [ SdkGetSentiments t1;
                 SdkGetEntities t2;
                 SdkTranslate analysis_text "eng_Latn" (get_language_code language) ]
           ∧ ends_sentence t1 = true
           ∧ (ascii_only (t_transcription_text resp) = true →
              t1 = sentiment_text (t_transcription_text resp)
              ∧ t2 = Py.strip (t_transcription_text resp))).
Proof.
  split_and!.
  - intros Hlang. unfold analyze_audio. by rewrite Hlang.
  - intros Hlang Htok. unfold analyze_audio. by rewrite Hlang, Htok.
  - intros resp s' Hrun.
    destruct (contains STT_LANGUAGE_MAP language) eqn:Hlang.
    2:{ unfold analyze_audio in Hrun. by rewrite Hlang in Hrun. }
    destruct (token_missing cfg) eqn:Htok.
    { unfold analyze_audio in Hrun. by rewrite Hlang, Htok in Hrun. }
    pose proof (analyze_audio_run cfg file language s Hlang Htok) as Hall.
    cbv zeta in Hall.
    destruct (reply (sdk_transcribe (client cfg) (file_bytes file) "eng"))
      as [data|e].
    + destruct (Py.get (data_transcription_text data) "") as [|c t].
      * by rewrite Hall in Hrun.
      * destruct Hall as (l & Hl & Hall). rewrite Hall in Hrun.
        injection Hrun as <- <-. simpl.
        split_and!; try done.
        exists (calls (analyze_audio_steps cfg language (String c t))),
          (analysis_text l), (sentiment_text (String c t)), (Py.strip (String c t)).
        split_and!; [done| | |apply sentiment_text_ends_sentence|done].
        -- destruct (analyze_audio_steps_inv cfg language (String c t) l Hl)
             as (a & _ & _ & _ & -> & -> & -> & _).
           unfold format_step. destruct (a_timed_out a); [by left|by right].
        -- by apply analyze_audio_steps_calls.
    + by rewrite Hall in Hrun.
Qed.

(** X13: for a request whose language has the code of English
    (["English"], ["Nigerian Pidgin"], ["Portuguese"]), [analyze_text]
    analyses the content as it is, answers with the English analysis
    text and never calls the translation of the provider. *)
Theorem english_code_needs_no_translation (cfg : Config)
    (request : TextAnalysisRequest) :
  get_language_code (req_language request) = "eng_Latn" →
  ∃ l,
    result (analyze_text_steps cfg request) = inl l
    ∧ english_text l = req_content request
    ∧ response_text l = analysis_text l
    ∧ Forall (λ c, is_translate c = false) (calls (analyze_text_steps cfg request))
    ∧ (∀ s s' resp,
         analyze_text cfg request s = (inl resp, s') →
         content resp = analysis_text l).
Proof.
  intros Hcode.
  destruct (analyze_text_steps_returns cfg request) as (l & Hl).
  destruct (analyze_text_steps_english_code cfg request l Hcode Hl)
    as (Het & Hrt & Hcalls).
  exists l. split_and!; [done|done|done| |].
  - rewrite Hcalls.
    pose proof (analyze_step_calls cfg (req_content request)) as Hsub.
    assert (Forall (λ c, is_translate c = false)
              [SdkGetSentiments (sentiment_text (req_content request));
               SdkGetEntities (Py.strip (req_content request))]) as Hall
      by by repeat constructor.
    revert Hall. generalize Hsub. clear.
    induction 1 as [|c l1 l2 _ IH|c l1 l2 _ IH]; intros Hall; [done|..].
    + apply Forall_cons in Hall as (Hc & Hall). constructor; auto.
    + apply Forall_cons in Hall as (_ & Hall). auto.
  - intros s s' resp Hrun.
    apply analyze_text_response in Hrun as (l' & Hl' & -> & _).
    rewrite Hl in Hl'. injection Hl' as <-. by simpl.
Qed.

Lemma english_code_needs_no_translation_witness :
  ∃ l,
    result (analyze_text_steps (Samples.config Samples.prompt Samples.zeros)
              Cases.portuguese_request) = inl l
    ∧ english_text l = "A colheita foi excelente"
    ∧ response_text l = analysis_text l.
Proof.
  destruct (english_code_needs_no_translation
              (Samples.config Samples.prompt Samples.zeros)
              Cases.portuguese_request)
    as (l & Hl & Het & Hrt & _); [by vm_compute|].
  by exists l.
Defined.

(** X14: with a credential and an ASCII text that is not blank, when
    the sentiment call and the entity call both end before three time
    units have passed,
    "Step 2" reports no timeout and keeps for each analysis what its own
    call gave: the parsed payload, or [None] if that call raised; a
    failure of one call does not touch the result of the other, and the
    analysis text is the formatting of the two results. *)
Theorem analyses_in_time (cfg : Config) (text : string) :
  token_missing cfg = false →
  ascii_only text = true →
  blank text = false →
  latency (sdk_get_sentiments (client cfg) (sentiment_text text) 0) < 3 →
  latency (sdk_get_entities (client cfg) (Py.strip text) 0) < 3 →
  ∃ a,
    result (analyze_step cfg text) = inl a
    ∧ a_timed_out a = false
    ∧ a_sentiment_result a
      = match reply (sdk_get_sentiments (client cfg) (sentiment_text text) 0) with
        | inl data => parse_sentiments data
        | inr _ => None
        end
    ∧ a_entities_result a
      = match reply (sdk_get_entities (client cfg) (Py.strip text) 0) with
        | inl data => Some (parse_entities data)
        | inr _ => None
        end
    ∧ format_step a
      = format_analysis_results (a_sentiment_result a) (a_entities_result a).
Proof.
  intros Htok _ Hblank Hs He.
  destruct (run_sentiment_once cfg text Htok Hblank) as (Hrs & Hts).
  destruct (run_entities_once cfg text Htok Hblank) as (Hre & Hte).
  eexists. split.
  - apply analyze_step_in_time; [done|done|]. rewrite Hts, Hte. lia.
  - by split_and!.
Qed.

Lemma analyses_in_time_witness :
  ∃ a,
    result (analyze_step (Samples.config Cases.entities_down Samples.zeros)
              "Harvest was excellent this year") = inl a
    ∧ a_sentiment_result a = parse_sentiments Samples.positive_payload
    ∧ a_entities_result a = None
    ∧ format_step a = "Sentiment: positive.".
Proof.
  destruct (analyses_in_time (Samples.config Cases.entities_down Samples.zeros)
              "Harvest was excellent this year")
    as (a & Ha & Hto & Hs & He & Hf); [done|done|done|simpl; lia|simpl; lia|].
  exists a. split_and!; [done|done|done|].
  rewrite Hf, Hs, He. by vm_compute.
Defined.

(** X15: the text of a response is never empty: neither the content of
    a text response, nor the analysis and the transcript of an audio
    response. *)
Theorem response_texts_not_empty (cfg : Config) :
  (∀ request s s' resp,
     analyze_text cfg request s = (inl resp, s') → content resp ≠ "")
  ∧ (∀ file language s s' resp,
       analyze_audio cfg file language s = (inl resp, s') →
       t_analysis resp ≠ "" ∧ t_transcription_text resp ≠ "").
Proof.
  split.
  - intros request s s' resp Hrun.
    apply analyze_text_response in Hrun as (l & Hl & -> & _). simpl.
    apply analyze_text_steps_inv in Hl as (a & _ & _ & _ & _ & _ & Hback).
    eapply translate_back_step_not_empty; [|exact Hback].
    apply format_step_not_empty.
  - intros file language s s' resp Hrun.
    apply analyze_audio_response in Hrun
      as (tr & s1 & l & Htr & Hl & -> & _ & Htok). simpl.
    split.
    + apply analyze_audio_steps_inv in Hl as (a & _ & _ & _ & _ & _ & _ & Hback).
      eapply translate_back_step_not_empty; [|exact Hback].
      apply format_step_not_empty.
    + rewrite transcribe_audio_english in Htr by done.
      repeat case_match; by simplify_eq.
Qed.

Lemma response_texts_not_empty_witness :
  ∃ resp,
    response_of
      (analyze_text (Samples.config Samples.prompt Samples.counting)
         Samples.zulu_request Samples.idle) = Some resp
    ∧ content resp ≠ "".
Proof.
  set (cfg := Samples.config Samples.prompt Samples.counting).
  destruct (analyze_text cfg Samples.zulu_request Samples.idle)
    as [[resp|e] s'] eqn:Hrun; [|by vm_compute in Hrun].
  exists resp. split; [done|].
  exact (proj1 (response_texts_not_empty cfg) _ _ _ _ Hrun).
Defined.

(** ** The listing endpoint *)

Lemma language_items_nodup : NoDup LANGUAGE_ITEMS.*1.
Proof. apply (bool_decide_unpack (NoDup LANGUAGE_ITEMS.*1)). by vm_compute. Qed.

(** X16: the answer of [GET /api/languages] lists each language once;
    the languages it lists are exactly those [analyze_text] accepts,
    each with the code [get_language_code] gives it, and every language
    [analyze_audio] accepts is among them. *)
Theorem listing_matches_validation (name : string) :
  NoDup (listed_languages get_languages)
  ∧ (name ∈ listed_languages get_languages ↔ contains LANGUAGE_MAP name = true)
  ∧ (name ∈ listed_languages get_languages →
     listed_language_codes get_languages !! name = Some (get_language_code name))
  ∧ (contains STT_LANGUAGE_MAP name = true →
     name ∈ listed_languages get_languages
     ∧ listed_stt_language_codes get_languages !! name
       = Some (get_stt_language_code name)).
Proof.
  assert (name ∈ LANGUAGE_ITEMS.*1 ↔ contains LANGUAGE_MAP name = true) as Hin.
  { unfold contains, LANGUAGE_MAP.
    destruct (list_to_map LANGUAGE_ITEMS !! name) as [code|] eqn:Hname.
    - apply elem_of_list_to_map in Hname; [|apply language_items_nodup].
      split; [done|]. intros _. apply list_elem_of_fmap. by exists (name, code).
    - apply not_elem_of_list_to_map in Hname. split; [done|discriminate]. }
  simpl. split_and!.
  - apply language_items_nodup.
  - done.
  - intros Hname%Hin. unfold contains, get_language_code in *.
    by destruct (LANGUAGE_MAP !! name).
  - intros Hstt. unfold contains, get_stt_language_code in *.
    destruct (STT_LANGUAGE_MAP !! name) as [code|] eqn:Hname; [|done].
    split; [|done]. apply Hin.
    assert (dom STT_LANGUAGE_MAP ⊆ dom LANGUAGE_MAP) as Hdom
      by (apply (bool_decide_unpack (dom STT_LANGUAGE_MAP ⊆ dom LANGUAGE_MAP));
          by vm_compute).
    assert (name ∈ dom LANGUAGE_MAP) as Hd
      by (apply Hdom, elem_of_dom; by eexists).
    apply elem_of_dom in Hd as (code' & Hc'). unfold contains. by rewrite Hc'.
Qed.
